(** * The SubtleCrypto polyfill of mindoodb-test-app, embedded in Rocq

    A shallow embedding of the TypeScript sources
    - [Ed25519Adapter.ts]  (key generation, SPKI / PKCS8 import and export and
      the ASN.1 DER helpers they rest on),
    - [AESAdapter.ts], [HMACAdapter.ts], [RSAAdapter.ts], [PBKDF2Adapter.ts],
      [SHA256Adapter.ts],
    - [SubtleCryptoPolyfill.ts] (the dispatcher),
    followed by the properties of the specification stated over it.

    JavaScript values are modelled the way the code uses them:
    - a byte is a [byte] of the standard library, the contents of a
      [Uint8Array] or an [ArrayBuffer] a [list byte];
    - a number is a [jsnum]: an integer or [NaN]; [undefined] is identified
      with [NaN], every place below that can meet it coerces it to a number
      or compares it to a number with [!==];
    - the bit operators work on 32-bit signed integers, with the wrap-around
      written out ([ToInt32]);
    - a function that can throw returns a [result]; an [async] function is
      modelled by the result its promise settles with;
    - the cryptographic libraries (TweetNaCl, node-forge) and the host
      ([crypto.getRandomValues], [atob], [btoa]) are the fields of the
      class [Primitives]: every statement holds for whatever they compute. *)

From Stdlib Require Import Strings.Ascii Strings.String Strings.Byte.
From Stdlib Require Import ZArith QArith Qround Lia.
From stdpp Require Import prelude strings pretty.
From Equations Require Import Equations.

#[local] Open Scope string_scope.
#[local] Open Scope list_scope.
#[local] Open Scope Z_scope.

(** ** Errors and the error monad *)

(** The error classes of the code: the built-in [Error], [RangeError] and
    [TypeError], and the polyfill's own [NotSupportedError] (a subclass of [Error] whose
    [name] is "NotSupportedError"). *)
Inductive JsError :=
| Error (message : string)
| RangeError (message : string)
| TypeError (message : string)
| NotSupportedError (message : string).

Inductive result (A : Type) :=
| Ok (a : A)
| Throw (e : JsError).
Arguments Ok {A} a.
Arguments Throw {A} e.

#[global] Instance result_ret : MRet result := λ A a, Ok a.
#[global] Instance result_bind : MBind result := λ A B f m,
  match m with
  | Ok a => f a
  | Throw e => Throw e
  end.

Definition isThrow {A} (r : result A) : bool :=
  match r with Ok _ => false | Throw _ => true end.

(** [String(error)] of an error object: its name, a colon, its message. *)
Definition error_to_string (e : JsError) : string :=
  match e with
  | Error m => "Error: " +:+ m
  | RangeError m => "RangeError: " +:+ m
  | TypeError m => "TypeError: " +:+ m
  | NotSupportedError m => "NotSupportedError: " +:+ m
  end.

(** A left fold whose step can throw: a [for] loop over an array. *)
Fixpoint foldM {A B} (f : B → A → result B) (b : B) (l : list A) : result B :=
  match l with
  | [] => Ok b
  | a :: l' => b' ← f b a; foldM f b' l'
  end.

(** ** Numbers *)

Inductive jsnum :=
| Num (z : Z)
| NaN.

#[global] Instance jsnum_eq_dec : EqDecision jsnum.
Proof. solve_decision. Defined.

(** Signed 32-bit wrap-around. *)
Definition wrap32 (z : Z) : Z := (z + 2 ^ 31) mod 2 ^ 32 - 2 ^ 31.

Definition ToInt32 (x : jsnum) : Z :=
  match x with
  | Num z => wrap32 z
  | NaN => 0
  end.

(** [ToUint32] *)
Definition ToUint32 (x : jsnum) : Z :=
  match x with
  | Num z => z mod 2 ^ 32
  | NaN => 0
  end.

(** [x & y], [x | y], [x ^ y], [x << n], [x >>> n] *)
Definition js_and (x y : jsnum) : jsnum := Num (Z.land (ToInt32 x) (ToInt32 y)).
Definition js_or (x y : jsnum) : jsnum := Num (Z.lor (ToInt32 x) (ToInt32 y)).
Definition js_xor (x y : jsnum) : jsnum := Num (Z.lxor (ToInt32 x) (ToInt32 y)).
Definition js_shl (x : jsnum) (n : Z) : jsnum :=
  Num (wrap32 (Z.shiftl (ToInt32 x) (n mod 32))).
Definition js_ushr (x : jsnum) (n : Z) : jsnum :=
  Num (Z.shiftr (ToUint32 x) (n mod 32)).

(** [x + y], [x - y] *)
Definition js_add (x y : jsnum) : jsnum :=
  match x, y with
  | Num a, Num b => Num (a + b)
  | _, _ => NaN
  end.
Definition js_sub (x y : jsnum) : jsnum :=
  match x, y with
  | Num a, Num b => Num (a - b)
  | _, _ => NaN
  end.

(** [x < y], [x > y], [x >= y]: false as soon as one side is [NaN]. *)
Definition js_lt (x y : jsnum) : bool :=
  match x, y with
  | Num a, Num b => bool_decide (a < b)
  | _, _ => false
  end.
Definition js_gt (x y : jsnum) : bool := js_lt y x.
Definition js_ge (x y : jsnum) : bool :=
  match x, y with
  | Num a, Num b => bool_decide (b ≤ a)
  | _, _ => false
  end.

(** [x === y] and [x !== y] on numbers ([NaN] is not equal to itself). *)
Definition js_seq (x y : jsnum) : bool :=
  match x, y with
  | Num a, Num b => bool_decide (a = b)
  | _, _ => false
  end.
Definition js_sne (x y : jsnum) : bool := negb (js_seq x y).

(** [`${x}`] *)
Definition js_to_string (x : jsnum) : string :=
  match x with
  | Num z => pretty z
  | NaN => "NaN"
  end.

(** [ToIntegerOrInfinity] of an integer or [NaN]. *)
Definition ToInteger (x : jsnum) : Z :=
  match x with
  | Num z => z
  | NaN => 0
  end.

(** ** Byte arrays *)

Abbreviation bytes := (list byte).

#[global] Instance byte_eq_dec : EqDecision byte := Byte.byte_eq_dec.

Definition byte_to_Z (b : byte) : Z := Z.of_N (Byte.to_N b).

(** Storing a number into a [Uint8Array]: reduced modulo 256. *)
Definition Z_to_byte (z : Z) : byte :=
  default x00 (Byte.of_N (Z.to_N (z mod 256))).

Definition jsnum_to_byte (x : jsnum) : byte := Z_to_byte (ToInt32 x).

(** [a.length] *)
Definition u8_length (a : bytes) : jsnum := Num (Z.of_nat (length a)).

(** [a[i]]: [undefined] outside of the array. *)
Definition u8_get (a : bytes) (i : jsnum) : jsnum :=
  match i with
  | Num z =>
      if bool_decide (0 ≤ z) then
        match a !! Z.to_nat z with
        | Some b => Num (byte_to_Z b)
        | None => NaN
        end
      else NaN
  | NaN => NaN
  end.

(** [new Uint8Array(n)] *)
Definition u8_new (n : nat) : bytes := replicate n x00.

(** [a[i] = b]: no effect outside of the array. *)
Definition u8_store (a : bytes) (i : nat) (b : byte) : bytes := <[i:=b]> a.

(** [a.set(src, offset)]: a [RangeError] when [src] does not fit. *)
Definition u8_set (a src : bytes) (offset : nat) : result bytes :=
  if bool_decide (offset + length src ≤ length a)%nat
  then Ok (take offset a ++ src ++ drop (offset + length src) a)
  else Throw (RangeError "offset is out of bounds").

(** [a.slice(start, end)] with the relative-index rules of the language. *)
Definition rel_index (len : Z) (i : Z) : Z :=
  if bool_decide (i < 0) then Z.max (len + i) 0 else Z.min i len.

Definition u8_slice (a : bytes) (start end_ : jsnum) : bytes :=
  let len := Z.of_nat (length a) in
  let k := rel_index len (ToInteger start) in
  let final := rel_index len (ToInteger end_) in
  take (Z.to_nat (Z.max (final - k) 0)) (drop (Z.to_nat k) a).

(** [a.slice(start)] *)
Definition u8_slice_from (a : bytes) (start : jsnum) : bytes :=
  u8_slice a start (u8_length a).

(** ** Ed25519Adapter.ts: the ASN.1 DER helpers *)

Module ASN1.

Definition ED25519_SEED_SIZE : Z := 32.
Definition ED25519_PUBLIC_KEY_SIZE : Z := 32.
Definition ED25519_SECRET_KEY_SIZE : Z := 64.
Definition ED25519_SIGNATURE_SIZE : Z := 64.

(** The object [{ value, bytesRead }] that [readASN1Length] returns. *)
Record ASN1Length := mkASN1Length { value : jsnum; bytesRead : jsnum }.

#[global] Instance ASN1Length_eq_dec : EqDecision ASN1Length.
Proof. solve_decision. Defined.

(** The body of the loop of [readASN1Length]:
    [length = (length << 8) | data[pos + 1 + i]]. *)
Definition readASN1Length_step (data : bytes) (pos : jsnum)
    (length : jsnum) (i : Z) : jsnum :=
  js_or (js_shl length 8) (u8_get data (js_add (js_add pos (Num 1)) (Num i))).

Definition readASN1Length (data : bytes) (pos : jsnum) : result ASN1Length :=
  if js_ge pos (u8_length data) then
    Throw (Error "Invalid ASN.1: unexpected end of data")
  else
    let firstByte := u8_get data pos in
    (* Short form (length < 128) *)
    if js_seq (js_and firstByte (Num 0x80)) (Num 0) then
      Ok {| value := firstByte; bytesRead := Num 1 |}
    else
      (* Long form (length >= 128) *)
      let lengthBytes := js_and firstByte (Num 0x7f) in
      if js_seq lengthBytes (Num 0) || js_gt lengthBytes (Num 4) then
        Throw (Error "Invalid ASN.1: invalid length encoding")
      else if js_gt (js_add (js_add pos (Num 1)) lengthBytes) (u8_length data) then
        Throw (Error "Invalid ASN.1: unexpected end of data")
      else
        let length :=
          foldl (readASN1Length_step data pos) (Num 0)
                (seqZ 0 (ToInteger lengthBytes)) in
        Ok {| value := length; bytesRead := js_add (Num 1) lengthBytes |}.

(** [extractEd25519PublicKeyFromSPKI] *)
Definition extractEd25519PublicKeyFromSPKI (spki : bytes) : result bytes :=
  let pos := Num 0 in
  (* Skip outer SEQUENCE tag (0x30) *)
  if js_sne (u8_get spki pos) (Num 0x30) then
    Throw (Error "Invalid SPKI format: expected SEQUENCE")
  else
    let pos := js_add pos (Num 1) in
    seqLength ← readASN1Length spki pos;
    let pos := js_add pos (bytesRead seqLength) in
    (* Skip AlgorithmIdentifier SEQUENCE *)
    if js_sne (u8_get spki pos) (Num 0x30) then
      Throw (Error "Invalid SPKI format: expected AlgorithmIdentifier SEQUENCE")
    else
      let pos := js_add pos (Num 1) in
      algIdLength ← readASN1Length spki pos;
      let pos := js_add pos (js_add (bytesRead algIdLength) (value algIdLength)) in
      (* Now we should be at the BIT STRING (0x03) *)
      if js_sne (u8_get spki pos) (Num 0x03) then
        Throw (Error "Invalid SPKI format: expected BIT STRING")
      else
        let pos := js_add pos (Num 1) in
        bitStringLength ← readASN1Length spki pos;
        let pos := js_add pos (bytesRead bitStringLength) in
        (* Skip the unused bits byte *)
        let pos := js_add pos (Num 1) in
        if js_sne (js_sub (value bitStringLength) (Num 1))
                  (Num ED25519_PUBLIC_KEY_SIZE) then
          Throw (Error ("Invalid Ed25519 public key size: expected "
                        +:+ pretty ED25519_PUBLIC_KEY_SIZE +:+ ", got "
                        +:+ js_to_string (js_sub (value bitStringLength) (Num 1))))
        else
          Ok (u8_slice spki pos (js_add pos (Num ED25519_PUBLIC_KEY_SIZE))).

(** [extractEd25519PrivateKeyFromPKCS8] *)
Definition extractEd25519PrivateKeyFromPKCS8 (pkcs8 : bytes) : result bytes :=
  let pos := Num 0 in
  (* Skip outer SEQUENCE tag (0x30) *)
  if js_sne (u8_get pkcs8 pos) (Num 0x30) then
    Throw (Error "Invalid PKCS8 format: expected SEQUENCE")
  else
    let pos := js_add pos (Num 1) in
    seqLength ← readASN1Length pkcs8 pos;
    let pos := js_add pos (bytesRead seqLength) in
    (* Skip version INTEGER (0x02) *)
    if js_sne (u8_get pkcs8 pos) (Num 0x02) then
      Throw (Error "Invalid PKCS8 format: expected version INTEGER")
    else
      let pos := js_add pos (Num 1) in
      versionLength ← readASN1Length pkcs8 pos;
      let pos := js_add pos (js_add (bytesRead versionLength) (value versionLength)) in
      (* Skip AlgorithmIdentifier SEQUENCE *)
      if js_sne (u8_get pkcs8 pos) (Num 0x30) then
        Throw (Error "Invalid PKCS8 format: expected AlgorithmIdentifier SEQUENCE")
      else
        let pos := js_add pos (Num 1) in
        algIdLength ← readASN1Length pkcs8 pos;
        let pos := js_add pos (js_add (bytesRead algIdLength) (value algIdLength)) in
        (* Now we should be at the outer OCTET STRING (0x04) *)
        if js_sne (u8_get pkcs8 pos) (Num 0x04) then
          Throw (Error "Invalid PKCS8 format: expected OCTET STRING")
        else
          let pos := js_add pos (Num 1) in
          outerOctetLength ← readASN1Length pkcs8 pos;
          let pos := js_add pos (bytesRead outerOctetLength) in
          (* Check if there's an inner OCTET STRING (RFC 8410 format) *)
          if js_seq (u8_get pkcs8 pos) (Num 0x04) then
            let pos := js_add pos (Num 1) in
            innerOctetLength ← readASN1Length pkcs8 pos;
            let pos := js_add pos (bytesRead innerOctetLength) in
            if js_sne (value innerOctetLength) (Num ED25519_SEED_SIZE) then
              Throw (Error ("Invalid Ed25519 private key size: expected "
                            +:+ pretty ED25519_SEED_SIZE +:+ ", got "
                            +:+ js_to_string (value innerOctetLength)))
            else
              Ok (u8_slice pkcs8 pos (js_add pos (Num ED25519_SEED_SIZE)))
          else
            (* Direct seed (older format) *)
            if js_sne (value outerOctetLength) (Num ED25519_SEED_SIZE) then
              Throw (Error ("Invalid Ed25519 private key size: expected "
                            +:+ pretty ED25519_SEED_SIZE +:+ ", got "
                            +:+ js_to_string (value outerOctetLength)))
            else
              Ok (u8_slice pkcs8 pos (js_add pos (Num ED25519_SEED_SIZE))).

(** The loop of [encodeASN1Length]:
    [while (value > 0) { bytes.unshift(value & 0xff); value >>>= 8; }].
    It ends: [>>>] leaves a smaller number. *)
Equations? encodeASN1Length_loop (value_ : Z) (bytes_ : list Z) : list Z
    by wf (Z.to_nat value_) lt :=
  encodeASN1Length_loop value_ bytes_ with decide (0 < value_) => {
    | left _ :=
        encodeASN1Length_loop (ToInteger (js_ushr (Num value_) 8))
          (ToInteger (js_and (Num value_) (Num 0xff)) :: bytes_);
    | right _ := bytes_ }.
Proof.
  cbn. change (8 mod 32) with 8. rewrite Z.shiftr_div_pow2 by lia.
  change (2 ^ 8) with 256.
  assert (value_ mod 2 ^ 32 ≤ value_) by (apply Z.mod_le; lia).
  assert (0 ≤ value_ mod 2 ^ 32) by (apply Z.mod_pos_bound; lia).
  assert (value_ mod 2 ^ 32 / 256 < value_) by (apply Z.div_lt_upper_bound; lia).
  assert (0 ≤ value_ mod 2 ^ 32 / 256) by (apply Z.div_pos; lia).
  lia.
Qed.

(** [encodeASN1Length] *)
Definition encodeASN1Length (length : Z) : bytes :=
  if bool_decide (length < 128) then
    (* Short form *)
    [Z_to_byte length]
  else
    (* Long form *)
    let bytes_ := encodeASN1Length_loop length [] in
    jsnum_to_byte (js_or (Num 0x80) (Num (Z.of_nat (List.length bytes_))))
      :: map Z_to_byte bytes_.

(** [totalLength += item.length] over the items. *)
Definition totalLength (items : list bytes) : nat :=
  foldl (λ acc item, acc + length item)%nat 0%nat items.

(** The body of the second loop of [encodeASN1Sequence]:
    [result.set(item, pos); pos += item.length]. *)
Definition encodeASN1Sequence_step (st : bytes * nat) (item : bytes)
    : result (bytes * nat) :=
  result' ← u8_set st.1 item st.2;
  mret (result', (st.2 + length item)%nat).

(** [encodeASN1Sequence] *)
Definition encodeASN1Sequence (items : list bytes) : result bytes :=
  let totalLength := totalLength items in
  let lengthBytes := encodeASN1Length (Z.of_nat totalLength) in
  let result := u8_new (1 + length lengthBytes + totalLength) in
  let result := u8_store result 0 x30 in (* SEQUENCE tag *)
  result ← u8_set result lengthBytes 1;
  let pos := (1 + length lengthBytes)%nat in
  st ← foldM encodeASN1Sequence_step (result, pos) items;
  mret st.1.

(** [encodeASN1BitString] *)
Definition encodeASN1BitString (data : bytes) : result bytes :=
  (* BIT STRING: tag (0x03) + length + unused bits (0x00) + data *)
  let length_ := (1 + length data)%nat in
  let lengthBytes := encodeASN1Length (Z.of_nat length_) in
  let result := u8_new (1 + length lengthBytes + length_) in
  let result := u8_store result 0 x03 in
  result ← u8_set result lengthBytes 1;
  let result := u8_store result (1 + length lengthBytes) x00 in
  u8_set result data (1 + length lengthBytes + 1).

(** [encodeASN1OctetString] *)
Definition encodeASN1OctetString (data : bytes) : result bytes :=
  let lengthBytes := encodeASN1Length (Z.of_nat (length data)) in
  let result := u8_new (1 + length lengthBytes + length data) in
  let result := u8_store result 0 x04 in
  result ← u8_set result lengthBytes 1;
  u8_set result data (1 + length lengthBytes).

(** [encodeASN1Integer] *)
Definition encodeASN1Integer (data : bytes) : result bytes :=
  let lengthBytes := encodeASN1Length (Z.of_nat (length data)) in
  let result := u8_new (1 + length lengthBytes + length data) in
  let result := u8_store result 0 x02 in
  result ← u8_set result lengthBytes 1;
  u8_set result data (1 + length lengthBytes).

(** OID 1.3.101.112 *)
Definition oid : bytes := [x06; x03; x2b; x65; x70].

(** [encodeEd25519PublicKeyToSPKI]; the final copy into a fresh
    [ArrayBuffer] keeps the bytes. *)
Definition encodeEd25519PublicKeyToSPKI (publicKey : bytes) : result bytes :=
  if js_sne (u8_length publicKey) (Num ED25519_PUBLIC_KEY_SIZE) then
    Throw (Error ("Invalid Ed25519 public key size: expected "
                  +:+ pretty ED25519_PUBLIC_KEY_SIZE +:+ ", got "
                  +:+ js_to_string (u8_length publicKey)))
  else
    algorithmId ← encodeASN1Sequence [oid];
    bitString ← encodeASN1BitString publicKey;
    outerSequence ← encodeASN1Sequence [algorithmId; bitString];
    mret outerSequence.

(** [encodeEd25519PrivateKeyToPKCS8] *)
Definition encodeEd25519PrivateKeyToPKCS8 (seed : bytes) : result bytes :=
  if js_sne (u8_length seed) (Num ED25519_SEED_SIZE) then
    Throw (Error ("Invalid Ed25519 seed size: expected "
                  +:+ pretty ED25519_SEED_SIZE +:+ ", got "
                  +:+ js_to_string (u8_length seed)))
  else
    version ← encodeASN1Integer [x00];
    algorithmId ← encodeASN1Sequence [oid];
    (* Inner OCTET STRING contains the seed *)
    innerOctetString ← encodeASN1OctetString seed;
    (* Outer OCTET STRING wraps the inner one *)
    outerOctetString ← encodeASN1OctetString innerOctetString;
    outerSequence ← encodeASN1Sequence [version; algorithmId; outerOctetString];
    mret outerSequence.

End ASN1.

(** ** Buffers as the adapters receive them *)

(** A view on an [ArrayBuffer]: the whole buffer, where it starts and how
    many bytes it covers. [view.buffer] is the whole buffer, whatever the
    view covers. *)
Record View := mkView { buffer : bytes; byteOffset : nat; byteLength : nat }.

(** The bytes a view covers. *)
Definition contents (v : View) : bytes :=
  take (byteLength v) (drop (byteOffset v) (buffer v)).

(** [new Uint8Array(buffer)]: a view on all of the buffer. *)
Definition u8_of_buffer (b : bytes) : View :=
  {| buffer := b; byteOffset := 0; byteLength := length b |}.

(** The TypeScript type [ArrayBuffer | Uint8Array]. *)
Inductive ArrayBufferOrUint8Array :=
| AB (b : bytes)
| U8 (v : View).

(** The TypeScript type [BufferSource]: an [ArrayBuffer], a [Uint8Array] or
    another [ArrayBufferView] (a [DataView], a [Uint16Array], ...). *)
Inductive BufferSource :=
| Plain (x : ArrayBufferOrUint8Array)
| OtherView (v : View).

(** [data instanceof Uint8Array ? data : new Uint8Array(data)] *)
Definition asUint8Array (data : ArrayBufferOrUint8Array) : View :=
  match data with
  | AB b => u8_of_buffer b
  | U8 v => v
  end.

(** [data instanceof ArrayBuffer ? data : data.buffer] *)
Definition bufferOf (data : BufferSource) : bytes :=
  match data with
  | Plain (AB b) => b
  | Plain (U8 v) => buffer v
  | OtherView v => buffer v
  end.

(** ** Hexadecimal strings back to bytes *)

(** [parseInt(s, 16)]: leading white space, a sign and a [0x] prefix are
    skipped, then the longest run of hexadecimal digits is read; [NaN] when
    there is none. *)
Definition is_white_space (c : ascii) : bool :=
  bool_decide (nat_of_ascii c ∈ [9; 10; 11; 12; 13; 32; 160]%nat).

Fixpoint skip_white_space (s : string) : string :=
  match s with
  | String c s' => if is_white_space c then skip_white_space s' else s
  | EmptyString => s
  end.

Definition hex_digit (c : ascii) : option Z :=
  let n := Z.of_nat (nat_of_ascii c) in
  if bool_decide (48 ≤ n ≤ 57) then Some (n - 48)
  else if bool_decide (97 ≤ n ≤ 102) then Some (n - 87)
  else if bool_decide (65 ≤ n ≤ 70) then Some (n - 55)
  else None.

Fixpoint hex_digits (s : string) (acc : option Z) : option Z :=
  match s with
  | String c s' =>
      match hex_digit c with
      | Some d => hex_digits s' (Some (default 0 acc * 16 + d))
      | None => acc
      end
  | EmptyString => acc
  end.

Definition strip_0x (s : string) : string :=
  match s with
  | String "0" (String "x" s') => s'
  | String "0" (String "X" s') => s'
  | _ => s
  end.

Definition parseInt16 (s : string) : jsnum :=
  let s := skip_white_space s in
  let '(sign, s) :=
    match s with
    | String "-" s' => (-1, s')
    | String "+" s' => (1, s')
    | _ => (1, s)
    end in
  match hex_digits (strip_0x s) None with
  | Some v => Num (sign * v)
  | None => NaN
  end.

(** The loop that every adapter runs over a hexadecimal string:
    [[
      const bytes = new Uint8Array(hex.length / 2);
      for (let i = 0; i < bytes.length; i++)
        bytes[i] = parseInt(hex.substr(i * 2, 2), 16);
    ]] *)
Definition hexToBytes (hex : string) : bytes :=
  map (λ i, jsnum_to_byte (parseInt16 (substring (i * 2) 2 hex)))
      (seq 0 (String.length hex / 2)).

(** The loop that turns a binary string into bytes:
    [bytes[i] = s.charCodeAt(i) & 0xff]. *)
Definition binaryStringToBytes (s : string) : bytes :=
  map (λ c, jsnum_to_byte (js_and (Num (Z.of_nat (nat_of_ascii c))) (Num 0xff)))
      (list_ascii_of_string s).

(** ** Fractional numbers: the results of [x / 8] *)

Inductive jsreal :=
| Real (q : Q)
| RNaN.

#[global] Instance Q_eq_dec : EqDecision Q.
Proof. solve_decision. Defined.
#[global] Instance jsreal_eq_dec : EqDecision jsreal.
Proof. solve_decision. Defined.

(** [x / 8], in lowest terms. *)
Definition js_div8 (x : jsnum) : jsreal :=
  match x with
  | Num z => Real (Qred (z # 8))
  | NaN => RNaN
  end.

(** [x * 8] *)
Definition js_mul8 (x : jsreal) : jsreal :=
  match x with
  | Real q => Real (Qred (q * 8))
  | RNaN => RNaN
  end.

#[global] Instance Qlt_decision (a b : Q) : Decision (Qlt a b).
Proof. unfold Qlt. apply _. Defined.

(** Truncation towards zero. *)
Definition Qtrunc (q : Q) : Z := Z.quot (Qnum q) (Zpos (Qden q)).

(** [ToIntegerOrInfinity] *)
Definition real_ToInteger (x : jsreal) : Z :=
  match x with
  | Real q => Qtrunc q
  | RNaN => 0
  end.

(** [n < x] and [n - x] for an integer [n]. *)
Definition int_lt_real (n : Z) (x : jsreal) : bool :=
  match x with
  | Real q => bool_decide (Qlt (inject_Z n) q)
  | RNaN => false
  end.
Definition int_sub_real (n : Z) (x : jsreal) : jsreal :=
  match x with
  | Real q => Real (inject_Z n - q)
  | RNaN => RNaN
  end.

(** [a.slice(start, end)] and [a.slice(start)] with fractional indices. *)
Definition u8_slice_real (a : bytes) (start end_ : jsreal) : bytes :=
  u8_slice a (Num (real_ToInteger start)) (Num (real_ToInteger end_)).
Definition u8_slice_from_real (a : bytes) (start : jsreal) : bytes :=
  u8_slice_from a (Num (real_ToInteger start)).

(** [new Uint8Array(n)] for a number [n]: [ToIndex] truncates, and a
    negative length is a [RangeError]. *)
Definition u8_new_real (n : jsreal) : result bytes :=
  let len := real_ToInteger n in
  if bool_decide (len < 0) then
    Throw (RangeError ("Invalid typed array length: " +:+ pretty len))
  else Ok (u8_new (Z.to_nat len)).

(** ** The libraries and the host *)

(** What the adapters call and do not define: TweetNaCl ([nacl]),
    node-forge ([forge]), the PEM framing of [KeyFormatConverter.ts] (built
    on the host's [atob] and [btoa]) and the host's random generator. A
    call that can throw returns a [result]; the forge byte buffers are read
    through [toHex] or as binary strings, as the adapters read them. *)
Class Primitives := {
  (** [nacl.sign.keyPair()]: the public key and the 64-byte secret key. *)
  nacl_sign_keyPair : result (bytes * bytes);
  (** [nacl.sign.keyPair.fromSeed(seed)] *)
  nacl_sign_keyPair_fromSeed : bytes → result (bytes * bytes);
  (** [nacl.sign.detached(msg, secretKey)] *)
  nacl_sign_detached : bytes → bytes → result bytes;
  (** [nacl.sign.detached.verify(msg, sig, publicKey)] *)
  nacl_sign_detached_verify : bytes → bytes → bytes → result bool;

  (** The key objects of [forge.pki.rsa]. *)
  ForgePublicKey : Type;
  ForgePrivateKey : Type;
  (** [forge.pki.rsa.generateKeyPair({ bits, e })], [e] the integer read
      from the bytes of the public exponent. *)
  forge_rsa_generateKeyPair : jsnum → Z → result (ForgePublicKey * ForgePrivateKey);
  forge_publicKeyToPem : ForgePublicKey → result string;
  forge_privateKeyToPem : ForgePrivateKey → result string;
  forge_publicKeyFromPem : string → result ForgePublicKey;
  forge_privateKeyFromPem : string → result ForgePrivateKey;
  (** [key.n.bitLength()] *)
  forge_publicKey_bitLength : ForgePublicKey → jsnum;
  forge_privateKey_bitLength : ForgePrivateKey → jsnum;
  (** [publicKey.encrypt(data, "RSA-OAEP", { md: sha256, mgf1: sha256 })]
      and [privateKey.decrypt(...)]: binary strings. *)
  forge_rsa_oaep_encrypt : ForgePublicKey → bytes → result string;
  forge_rsa_oaep_decrypt : ForgePrivateKey → bytes → result string;

  (** [createCipher("AES-GCM", key)], [start({ iv, tagLength })],
      [update(data)], [finish()]: [cipher.output.toHex()] and
      [cipher.mode.tag.toHex()]. *)
  forge_aes_gcm_encrypt : bytes → bytes → jsreal → bytes → result (string * string);
  (** [createDecipher("AES-GCM", key)], [start({ iv, tagLength, tag })],
      [update(data)], [finish()]: what [finish()] returned and
      [decipher.output.toHex()]. *)
  forge_aes_gcm_decrypt : bytes → bytes → jsreal → bytes → bytes → result (bool * string);

  (** [forge.hmac] with "sha256": [digest().toHex()] for a key and a
      message. *)
  forge_hmac_sha256 : bytes → bytes → string;
  (** [forge.md.sha256]: [digest().toHex()]. *)
  forge_sha256 : bytes → string;
  (** [forge.pkcs5.pbkdf2(password, salt, iterations, keyLength, sha256)]:
      a binary string. *)
  forge_pbkdf2 : bytes → bytes → jsnum → jsreal → result string;

  (** [pemToArrayBuffer] and [arrayBufferToPEM] of KeyFormatConverter.ts;
      the boolean says "PUBLIC KEY" (true) or "PRIVATE KEY" (false). *)
  pemToArrayBuffer : string → result bytes;
  arrayBufferToPEM : bytes → bool → result string;

  (** The global [crypto.getRandomValues], when the host has one: the
      bytes it fills an array of the given length with. *)
  crypto_getRandomValues : option (nat → result bytes);
}.

(** ** Algorithm identifiers and key handles *)

(** An algorithm object: its [name] and the parameters the code reads; a
    parameter that is absent is [None] ([NaN] for a number). *)
Record AlgObject := mkAlg {
  name : string;
  modulusLength : jsnum;
  publicExponent : option bytes;
  hash : option string;
  length_ : jsnum;
  iv : option BufferSource;
  tagLength : jsnum;
  salt : option BufferSource;
  iterations : jsnum;
  label : option BufferSource;
}.

(** The object [{ name: s }]. *)
Definition nameOnly (s : string) : AlgObject :=
  {| name := s; modulusLength := NaN; publicExponent := None; hash := None;
     length_ := NaN; iv := None; tagLength := NaN; salt := None;
     iterations := NaN; label := None |}.

(** An [AlgorithmIdentifier]: a string or an object. *)
Inductive AlgorithmIdentifier :=
| AlgStr (s : string)
| AlgObj (o : AlgObject).

(** [typeof algorithm === "string" ? { name: algorithm } : algorithm] *)
Definition normalize (algorithm : AlgorithmIdentifier) : AlgObject :=
  match algorithm with
  | AlgStr s => nameOnly s
  | AlgObj o => o
  end.

(** [algorithm.name]: [undefined] on a string. *)
Definition name_of (algorithm : AlgorithmIdentifier) : option string :=
  match algorithm with
  | AlgStr _ => None
  | AlgObj o => Some (name o)
  end.

(** [String(x)] for an optional string in a template literal. *)
Definition undefined_or (s : option string) : string := default "undefined" s.

Section Keys.
Context {P : Primitives}.

(** A key handle: the fields of [CryptoKey] and the material the adapters
    attach to it ([_rawKey] is an [ArrayBuffer], [_rawPublicKey] and
    [_rawPrivateKey] are [Uint8Array]s that cover their buffer). *)
Record CryptoKey := mkKey {
  type : string;
  extractable : bool;
  algorithm : AlgObject;
  usages : list string;
  _rawKey : option bytes;
  _rawPublicKey : option bytes;
  _rawPrivateKey : option bytes;
  _forgePublicKey : option ForgePublicKey;
  _forgePrivateKey : option ForgePrivateKey;
  _pemPublicKey : option string;
  _pemPrivateKey : option string;
}.

(** A handle with no material attached. *)
Definition bareKey (ty : string) (ext : bool) (alg : AlgObject)
    (us : list string) : CryptoKey :=
  {| type := ty; extractable := ext; algorithm := alg; usages := us;
     _rawKey := None; _rawPublicKey := None; _rawPrivateKey := None;
     _forgePublicKey := None; _forgePrivateKey := None;
     _pemPublicKey := None; _pemPrivateKey := None |}.

Definition with_rawKey (k : CryptoKey) (m : bytes) : CryptoKey :=
  {| type := type k; extractable := extractable k; algorithm := algorithm k;
     usages := usages k; _rawKey := Some m;
     _rawPublicKey := _rawPublicKey k; _rawPrivateKey := _rawPrivateKey k;
     _forgePublicKey := _forgePublicKey k; _forgePrivateKey := _forgePrivateKey k;
     _pemPublicKey := _pemPublicKey k; _pemPrivateKey := _pemPrivateKey k |}.

Definition with_rawPublicKey (k : CryptoKey) (m : bytes) : CryptoKey :=
  {| type := type k; extractable := extractable k; algorithm := algorithm k;
     usages := usages k; _rawKey := _rawKey k;
     _rawPublicKey := Some m; _rawPrivateKey := _rawPrivateKey k;
     _forgePublicKey := _forgePublicKey k; _forgePrivateKey := _forgePrivateKey k;
     _pemPublicKey := _pemPublicKey k; _pemPrivateKey := _pemPrivateKey k |}.

Definition with_rawPrivateKey (k : CryptoKey) (m : bytes) : CryptoKey :=
  {| type := type k; extractable := extractable k; algorithm := algorithm k;
     usages := usages k; _rawKey := _rawKey k;
     _rawPublicKey := _rawPublicKey k; _rawPrivateKey := Some m;
     _forgePublicKey := _forgePublicKey k; _forgePrivateKey := _forgePrivateKey k;
     _pemPublicKey := _pemPublicKey k; _pemPrivateKey := _pemPrivateKey k |}.

Definition with_forgePublicKey (k : CryptoKey) (f : ForgePublicKey)
    (pem : string) : CryptoKey :=
  {| type := type k; extractable := extractable k; algorithm := algorithm k;
     usages := usages k; _rawKey := _rawKey k;
     _rawPublicKey := _rawPublicKey k; _rawPrivateKey := _rawPrivateKey k;
     _forgePublicKey := Some f; _forgePrivateKey := _forgePrivateKey k;
     _pemPublicKey := Some pem; _pemPrivateKey := _pemPrivateKey k |}.

Definition with_forgePrivateKey (k : CryptoKey) (f : ForgePrivateKey)
    (pem : string) : CryptoKey :=
  {| type := type k; extractable := extractable k; algorithm := algorithm k;
     usages := usages k; _rawKey := _rawKey k;
     _rawPublicKey := _rawPublicKey k; _rawPrivateKey := _rawPrivateKey k;
     _forgePublicKey := _forgePublicKey k; _forgePrivateKey := Some f;
     _pemPublicKey := _pemPublicKey k; _pemPrivateKey := Some pem |}.

(** The same handle with other usages, or another [extractable] flag. *)
Definition with_usages (k : CryptoKey) (us : list string) : CryptoKey :=
  {| type := type k; extractable := extractable k; algorithm := algorithm k;
     usages := us; _rawKey := _rawKey k;
     _rawPublicKey := _rawPublicKey k; _rawPrivateKey := _rawPrivateKey k;
     _forgePublicKey := _forgePublicKey k; _forgePrivateKey := _forgePrivateKey k;
     _pemPublicKey := _pemPublicKey k; _pemPrivateKey := _pemPrivateKey k |}.

Definition with_extractable (k : CryptoKey) (ext : bool) : CryptoKey :=
  {| type := type k; extractable := ext; algorithm := algorithm k;
     usages := usages k; _rawKey := _rawKey k;
     _rawPublicKey := _rawPublicKey k; _rawPrivateKey := _rawPrivateKey k;
     _forgePublicKey := _forgePublicKey k; _forgePrivateKey := _forgePrivateKey k;
     _pemPublicKey := _pemPublicKey k; _pemPrivateKey := _pemPrivateKey k |}.

(** [CryptoKeyPair | CryptoKey] *)
Inductive KeyOrPair :=
| SingleKey (key : CryptoKey)
| KeyPair (publicKey privateKey : CryptoKey).

End Keys.

(** ** Ed25519Adapter.ts: the adapter *)

Module ed25519.
Import ASN1.
Section WithPrimitives.
Context {P : Primitives}.

(** [ed25519GenerateKey] *)
Definition ed25519GenerateKey : result KeyOrPair :=
  keyPair ← nacl_sign_keyPair;
  mret (KeyPair
    (with_rawPublicKey
       (bareKey "public" true (nameOnly "Ed25519") ["verify"]) keyPair.1)
    (* Store the full 64-byte secret key (TweetNaCl format) *)
    (with_rawPrivateKey
       (bareKey "private" true (nameOnly "Ed25519") ["sign"]) keyPair.2)).

(** [ed25519ImportKey]; [keyData] is the [ArrayBuffer] the dispatcher
    passes. *)
Definition ed25519ImportKey (format : string) (keyData : bytes)
    (algorithm : AlgObject) (extractable : bool) (keyUsages : list string)
    : result CryptoKey :=
  let keyBytes := keyData in
  if bool_decide (format = "spki") then
    (* SPKI format for public keys *)
    publicKey ← extractEd25519PublicKeyFromSPKI keyBytes;
    mret (with_rawPublicKey
            (bareKey "public" extractable algorithm keyUsages) publicKey)
  else
    (* PKCS8 format for private keys *)
    seed ← extractEd25519PrivateKeyFromPKCS8 keyBytes;
    keyPair ← nacl_sign_keyPair_fromSeed seed;
    mret (with_rawPrivateKey
            (bareKey "private" extractable algorithm keyUsages) keyPair.2).

(** [ed25519ExportKey] *)
Definition ed25519ExportKey (format : string) (key : CryptoKey) : result bytes :=
  if bool_decide (format = "spki") then
    match _rawPublicKey key with
    | None => Throw (Error "Key does not contain public key material")
    | Some publicKey => encodeEd25519PublicKeyToSPKI publicKey
    end
  else
    match _rawPrivateKey key with
    | None => Throw (Error "Key does not contain private key material")
    | Some secretKey =>
        (* PKCS8 stores only the 32-byte seed *)
        let seed := u8_slice secretKey (Num 0) (Num ED25519_SEED_SIZE) in
        encodeEd25519PrivateKeyToPKCS8 seed
    end.

(** [ed25519Sign] *)
Definition ed25519Sign (algorithm : AlgObject) (key : CryptoKey)
    (data : ArrayBufferOrUint8Array) : result bytes :=
  match _rawPrivateKey key with
  | None => Throw (Error "Key does not contain private key material")
  | Some secretKey =>
      let dataBytes := asUint8Array data in
      nacl_sign_detached (contents dataBytes) secretKey
  end.

(** [ed25519Verify] *)
Definition ed25519Verify (algorithm : AlgObject) (key : CryptoKey)
    (signature data : ArrayBufferOrUint8Array) : result bool :=
  match _rawPublicKey key with
  | None => Throw (Error "Key does not contain public key material")
  | Some publicKey =>
      let sigBytes := asUint8Array signature in
      let dataBytes := asUint8Array data in
      nacl_sign_detached_verify (contents dataBytes) (contents sigBytes) publicKey
  end.

End WithPrimitives.
End ed25519.

(** ** RSAAdapter.ts *)

Module rsa.
Section WithPrimitives.
Context {P : Primitives}.

(** [keyUsages.filter((u) => u === usage)] *)
Definition filter_usage (usage : string) (keyUsages : list string) : list string :=
  filter (λ u, u = usage) keyUsages.

(** The loop of [rsaGenerateKey] over the bytes of the public exponent:
    [exponent = (exponent << 8n) | BigInt(byte)], on big integers. *)
Definition exponent_of (publicExponent : bytes) : Z :=
  foldl (λ exponent b, Z.lor (Z.shiftl exponent 8) (byte_to_Z b)) 0 publicExponent.

(** The [algorithm] field of an RSA key handle. *)
Definition rsaKeyAlgorithm (modulusLength : jsnum) (publicExponent : bytes)
    (hash : option string) : AlgObject :=
  {| name := "RSA-OAEP"; modulusLength := modulusLength;
     publicExponent := Some publicExponent; hash := hash;
     length_ := NaN; iv := None; tagLength := NaN; salt := None;
     iterations := NaN; label := None |}.

(** [rsaGenerateKey] *)
Definition rsaGenerateKey (algorithm : AlgObject) (extractable : bool)
    (keyUsages : list string) : result KeyOrPair :=
  match publicExponent algorithm with
  | None =>
      Throw (TypeError "Cannot read properties of undefined (reading 'length')")
  | Some e =>
      let exponent := exponent_of e in
      keyPair ← forge_rsa_generateKeyPair (modulusLength algorithm) exponent;
      publicKeyPem ← forge_publicKeyToPem keyPair.1;
      privateKeyPem ← forge_privateKeyToPem keyPair.2;
      let alg := rsaKeyAlgorithm (modulusLength algorithm) e (hash algorithm) in
      mret (KeyPair
        (with_forgePublicKey
           (bareKey "public" extractable alg (filter_usage "encrypt" keyUsages))
           keyPair.1 publicKeyPem)
        (with_forgePrivateKey
           (bareKey "private" extractable alg (filter_usage "decrypt" keyUsages))
           keyPair.2 privateKeyPem))
  end.

(** [rsaImportKey]: what the [try] block throws is wrapped in an [Error]. *)
Definition rsaImportKey (format : string) (keyData : bytes)
    (algorithm : AlgObject) (extractable : bool) (keyUsages : list string)
    : result CryptoKey :=
  pem ← arrayBufferToPEM keyData (bool_decide (format = "spki"));
  let attempt : result CryptoKey :=
    if bool_decide (format = "spki") then
      publicKey ← forge_publicKeyFromPem pem;
      publicKeyPem ← forge_publicKeyToPem publicKey;
      let modulusLength := forge_publicKey_bitLength publicKey in
      mret (with_forgePublicKey
              (bareKey "public" extractable
                 (rsaKeyAlgorithm modulusLength [x01; x00; x01] (hash algorithm))
                 (filter_usage "encrypt" keyUsages))
              publicKey publicKeyPem)
    else
      privateKey ← forge_privateKeyFromPem pem;
      privateKeyPem ← forge_privateKeyToPem privateKey;
      let modulusLength := forge_privateKey_bitLength privateKey in
      mret (with_forgePrivateKey
              (bareKey "private" extractable
                 (rsaKeyAlgorithm modulusLength [x01; x00; x01] (hash algorithm))
                 (filter_usage "decrypt" keyUsages))
              privateKey privateKeyPem) in
  match attempt with
  | Ok key => Ok key
  | Throw error =>
      Throw (Error ("Failed to import RSA key: " +:+ error_to_string error))
  end.

(** [!pem]: the field is absent or the empty string. *)
Definition falsy_string (pem : option string) : bool :=
  match pem with
  | None => true
  | Some s => bool_decide (s = "")
  end.

(** [rsaExportKey] *)
Definition rsaExportKey (format : string) (key : CryptoKey) : result bytes :=
  if bool_decide (format = "spki") then
    let pem := _pemPublicKey key in
    if falsy_string pem then
      Throw (Error "Key does not contain public key material")
    else pemToArrayBuffer (default "" pem)
  else
    let pem := _pemPrivateKey key in
    if falsy_string pem then
      Throw (Error "Key does not contain private key material")
    else pemToArrayBuffer (default "" pem).

(** [rsaEncrypt]: the message handed to forge is all of
    [dataBytes.buffer]. *)
Definition rsaEncrypt (algorithm : AlgObject) (key : CryptoKey)
    (data : ArrayBufferOrUint8Array) : result bytes :=
  match _forgePublicKey key with
  | None => Throw (Error "Key does not contain public key material")
  | Some publicKey =>
      let dataBytes := asUint8Array data in
      encrypted ← forge_rsa_oaep_encrypt publicKey (buffer dataBytes);
      mret (binaryStringToBytes encrypted)
  end.

(** [rsaDecrypt] *)
Definition rsaDecrypt (algorithm : AlgObject) (key : CryptoKey)
    (data : ArrayBufferOrUint8Array) : result bytes :=
  match _forgePrivateKey key with
  | None => Throw (Error "Key does not contain private key material")
  | Some privateKey =>
      let dataBytes := asUint8Array data in
      decrypted ← forge_rsa_oaep_decrypt privateKey (buffer dataBytes);
      mret (binaryStringToBytes decrypted)
  end.

End WithPrimitives.
End rsa.

(** ** AESAdapter.ts *)

Module aes.
Section WithPrimitives.
Context {P : Primitives}.

(** The TypeScript type [CryptoKey | ArrayBuffer]. *)
Inductive KeyOrBuffer :=
| IsKey (key : CryptoKey)
| IsBuffer (b : bytes).

(** [new Uint8Array((key as any)._rawKey || key)]: a key handle with no
    [_rawKey] is no buffer and gives an empty array. *)
Definition keyBytesOf (key : KeyOrBuffer) : bytes :=
  match key with
  | IsKey k => default [] (_rawKey k)
  | IsBuffer b => b
  end.

(** [params.tagLength || 128] *)
Definition tagLength_or_128 (params : AlgObject) : jsnum :=
  match tagLength params with
  | NaN | Num 0 => Num 128
  | Num t => Num t
  end.

Definition iv_missing : JsError :=
  TypeError "Cannot read properties of undefined (reading 'byteLength')".

(** [ivBytes.buffer] in [aesGcmEncrypt]: another kind of view is copied
    first. *)
Definition ivBufferEncrypt (params : AlgObject) : result bytes :=
  match iv params with
  | Some (Plain (U8 v)) => Ok (buffer v)
  | Some (Plain (AB b)) => Ok b
  | Some (OtherView v) => Ok (contents v)
  | None => Throw iv_missing
  end.

(** [ivBytes.buffer] in [aesGcmDecrypt]: another kind of view is viewed
    again, on the same buffer. *)
Definition ivBufferDecrypt (params : AlgObject) : result bytes :=
  match iv params with
  | Some (Plain (U8 v)) => Ok (buffer v)
  | Some (Plain (AB b)) => Ok b
  | Some (OtherView v) => Ok (buffer v)
  | None => Throw iv_missing
  end.

(** [aesGcmEncrypt] *)
Definition aesGcmEncrypt (params : AlgObject) (key : KeyOrBuffer)
    (data : ArrayBufferOrUint8Array) : result bytes :=
  let keyBytes := keyBytesOf key in
  let dataBytes := asUint8Array data in
  ivBuffer ← ivBufferEncrypt params;
  out ← forge_aes_gcm_encrypt keyBytes ivBuffer
          (js_div8 (tagLength_or_128 params)) (* Convert bits to bytes *)
          (buffer dataBytes);
  let encryptedBytes := hexToBytes out.1 in
  let tagBytes := hexToBytes out.2 in
  (* Combine: ciphertext + tag *)
  let result := u8_new (length encryptedBytes + length tagBytes) in
  result ← u8_set result encryptedBytes 0;
  u8_set result tagBytes (length encryptedBytes).

(** [aesGcmDecrypt] *)
Definition aesGcmDecrypt (params : AlgObject) (key : KeyOrBuffer)
    (data : ArrayBufferOrUint8Array) : result bytes :=
  let keyBytes := keyBytesOf key in
  let dataBytes := contents (asUint8Array data) in
  ivBuffer ← ivBufferDecrypt params;
  (* Extract tag *)
  let tagLength := js_div8 (tagLength_or_128 params) in (* Convert bits to bytes *)
  let len := Z.of_nat (length dataBytes) in
  if int_lt_real len tagLength then
    Throw (Error "Encrypted data too short (missing tag)")
  else
    let ciphertext :=
      u8_slice_real dataBytes (Real 0) (int_sub_real len tagLength) in
    let tag := u8_slice_from_real dataBytes (int_sub_real len tagLength) in
    out ← forge_aes_gcm_decrypt keyBytes ivBuffer
            (js_mul8 tagLength) (* Convert bytes to bits for node-forge *)
            tag ciphertext;
    if negb out.1 then
      Throw (Error "AES-GCM decryption failed: authentication tag mismatch")
    else
      mret (hexToBytes out.2).

End WithPrimitives.
End aes.

(** ** PBKDF2Adapter.ts *)

Module pbkdf2.
Section WithPrimitives.
Context {P : Primitives}.

(** [saltBytes.buffer] *)
Definition saltBuffer (params : AlgObject) : result bytes :=
  match salt params with
  | Some (Plain (U8 v)) => Ok (buffer v)
  | Some (Plain (AB b)) => Ok b
  | Some (OtherView v) => Ok (contents v)
  | None =>
      Throw (TypeError "Cannot read properties of undefined (reading 'byteLength')")
  end.

(** The loop [for (i = 0; i < keyLength && i < derivedKey.length; i++)
    keyMaterial[i] = derivedKey.charCodeAt(i) & 0xff]. *)
Definition fillKeyMaterial (keyMaterial : bytes) (derivedKey : string) : bytes :=
  let src := binaryStringToBytes derivedKey in
  let n := Nat.min (length keyMaterial) (length src) in
  take n src ++ drop n keyMaterial.

(** [pbkdf2DeriveKey]; [baseKey] is an [ArrayBuffer]. *)
Definition pbkdf2DeriveKey (params : AlgObject) (baseKey : bytes)
    (derivedKeyParams : AlgObject) : result CryptoKey :=
  saltBytes ← saltBuffer params;
  let keyLength := js_div8 (length_ derivedKeyParams) in (* Convert bits to bytes *)
  derivedKey ← forge_pbkdf2 baseKey saltBytes (iterations params) keyLength;
  keyMaterial ← u8_new_real keyLength;
  let keyMaterial := fillKeyMaterial keyMaterial derivedKey in
  mret (with_rawKey
          (bareKey "secret" false derivedKeyParams ["encrypt"; "decrypt"])
          keyMaterial).

End WithPrimitives.
End pbkdf2.

(** ** HMACAdapter.ts *)

Module hmac.
Section WithPrimitives.
Context {P : Primitives}.

(** [hmacSign]; the message handed to forge is all of [dataBytes.buffer]. *)
Definition hmacSign (key : bytes) (data : ArrayBufferOrUint8Array) : result bytes :=
  let keyBytes := u8_of_buffer key in
  let dataBytes := asUint8Array data in
  let sigHex := forge_hmac_sha256 (buffer keyBytes) (buffer dataBytes) in
  mret (hexToBytes sigHex).

(** The body of the comparison loop of [hmacVerify]:
    [result |= sigBytes[i] ^ expectedBytes[i]]. *)
Definition hmacVerify_step (sigBytes expectedBytes : bytes)
    (result : jsnum) (i : Z) : jsnum :=
  js_or result (js_xor (u8_get sigBytes (Num i)) (u8_get expectedBytes (Num i))).

(** [hmacVerify] *)
Definition hmacVerify (key : bytes) (signature data : ArrayBufferOrUint8Array)
    : result bool :=
  expectedSignature ← hmacSign key data;
  let sigBytes := contents (asUint8Array signature) in
  let expectedBytes := expectedSignature in
  if js_sne (u8_length sigBytes) (u8_length expectedBytes) then
    mret false
  else
    (* Constant-time comparison *)
    let result :=
      foldl (hmacVerify_step sigBytes expectedBytes) (Num 0)
            (seqZ 0 (Z.of_nat (length sigBytes))) in
    mret (js_seq result (Num 0)).

End WithPrimitives.
End hmac.

(** ** SHA256Adapter.ts *)

Module sha256.
Section WithPrimitives.
Context {P : Primitives}.


End WithPrimitives.
End sha256.

(** ** SubtleCryptoPolyfill.ts: the dispatcher *)

Module SubtleCryptoPolyfill.
Section WithPrimitives.
Context {P : Primitives}.

(** The [algorithm] field of an AES-GCM or HMAC key handle. *)
Definition aesKeyAlgorithm (length : jsnum) : AlgObject :=
  {| name := "AES-GCM"; modulusLength := NaN; publicExponent := None;
     hash := None; length_ := length; iv := None; tagLength := NaN;
     salt := None; iterations := NaN; label := None |}.

Definition hmacKeyAlgorithm (hash : option string) (length : jsnum) : AlgObject :=
  {| name := "HMAC"; modulusLength := NaN; publicExponent := None;
     hash := hash; length_ := length; iv := None; tagLength := NaN;
     salt := None; iterations := NaN; label := None |}.

(** [generateKey] *)
Definition generateKey (algorithm : AlgorithmIdentifier) (extractable : bool)
    (keyUsages : list string) : result KeyOrPair :=
  let alg := normalize algorithm in
  if bool_decide (name alg = "Ed25519") then
    ed25519.ed25519GenerateKey
  else if bool_decide (name alg = "RSA-OAEP") then
    let params := alg in
    rsa.rsaGenerateKey
      {| name := "RSA-OAEP"; modulusLength := modulusLength params;
         publicExponent := Some (default [] (publicExponent params));
         hash := hash params;
         length_ := NaN; iv := None; tagLength := NaN; salt := None;
         iterations := NaN; label := None |}
      extractable keyUsages
  else if bool_decide (name alg = "AES-GCM") then
    let params := alg in
    (* Generate random key material *)
    let keyLength := js_div8 (length_ params) in (* Convert bits to bytes *)
    keyMaterial ← u8_new_real keyLength;
    match crypto_getRandomValues with
    | Some getRandomValues =>
        keyMaterial ← getRandomValues (length keyMaterial);
        mret (SingleKey
          (with_rawKey
             (bareKey "secret" extractable (aesKeyAlgorithm (length_ params)) keyUsages)
             keyMaterial))
    | None => Throw (Error "getRandomValues not available")
    end
  else
    Throw (NotSupportedError ("Algorithm " +:+ name alg +:+ " is not supported")).

(** The copy of [keyData] into an [ArrayBuffer] at the start of
    [importKey]. *)
Definition keyBufferOf (keyData : BufferSource) : bytes :=
  match keyData with
  | Plain (AB b) => b
  | Plain (U8 v) => contents v
  | OtherView v => contents v
  end.

(** [params.length || keyBytes.length * 8] *)
Definition length_or (length : jsnum) (fallback : Z) : jsnum :=
  match length with
  | NaN | Num 0 => Num fallback
  | Num n => Num n
  end.

(** [importKey] *)
Definition importKey (format : string) (keyData : BufferSource)
    (algorithm : AlgorithmIdentifier) (extractable : bool)
    (keyUsages : list string) : result CryptoKey :=
  if bool_decide (format = "jwk") then
    Throw (NotSupportedError "JWK format is not supported")
  else
    let keyBuffer := keyBufferOf keyData in
    let alg := normalize algorithm in
    if bool_decide (name alg = "Ed25519") then
      ed25519.ed25519ImportKey format keyBuffer alg extractable keyUsages
    else if bool_decide (name alg = "RSA-OAEP") then
      let params := alg in
      rsa.rsaImportKey format keyBuffer
        {| name := "RSA-OAEP"; modulusLength := NaN; publicExponent := None;
           hash := hash params;
           length_ := NaN; iv := None; tagLength := NaN; salt := None;
           iterations := NaN; label := None |}
        extractable keyUsages
    else if bool_decide (name alg = "AES-GCM") then
      if bool_decide (format ≠ "raw") then
        Throw (Error "AES-GCM keys can only be imported in 'raw' format")
      else
        let params := alg in
        let keyBytes := keyBuffer in
        mret (with_rawKey
                (bareKey "secret" extractable
                   (aesKeyAlgorithm
                      (length_or (length_ params) (Z.of_nat (length keyBytes) * 8)))
                   keyUsages)
                keyBuffer)
    else if bool_decide (name alg = "HMAC") then
      if bool_decide (format ≠ "raw") then
        Throw (Error "HMAC keys can only be imported in 'raw' format")
      else
        let params := alg in
        mret (with_rawKey
                (bareKey "secret" extractable
                   (hmacKeyAlgorithm (hash params)
                      (Num (Z.of_nat (length keyBuffer) * 8)))
                   keyUsages)
                keyBuffer)
    else if bool_decide (name alg = "PBKDF2") then
      (* PBKDF2 key import - treat the keyData as raw password material *)
      mret (with_rawKey (bareKey "secret" extractable alg keyUsages) keyBuffer)
    else
      Throw (NotSupportedError ("Algorithm " +:+ name alg +:+ " is not supported")).

(** [exportKey] *)
Definition exportKey (format : string) (key : CryptoKey) : result bytes :=
  if bool_decide (format = "jwk") then
    Throw (NotSupportedError "JWK format is not supported")
  else if bool_decide (format = "raw") then
    (* For raw keys (AES, HMAC), export the raw key material *)
    match _rawKey key with
    | None => Throw (Error "Key does not contain raw key material")
    | Some rawKey => Ok rawKey
    end
  else if bool_decide (format = "spki") || bool_decide (format = "pkcs8") then
    if bool_decide (name (algorithm key) = "Ed25519") then
      ed25519.ed25519ExportKey format key
    else if bool_decide (name (algorithm key) = "RSA-OAEP") then
      rsa.rsaExportKey format key
    else
      Throw (Error ("Cannot export " +:+ name (algorithm key) +:+ " key in "
                    +:+ format +:+ " format"))
  else
    Throw (NotSupportedError ("Export format " +:+ format +:+ " is not supported")).

(** [algorithm === "HMAC"] *)
Definition is_string (algorithm : AlgorithmIdentifier) (s : string) : bool :=
  match algorithm with
  | AlgStr s' => bool_decide (s' = s)
  | AlgObj _ => false
  end.

(** [`${alg.name || algorithm}`]: the name unless it is empty, else the
    identifier itself as a string. *)
Definition name_or_algorithm (alg : AlgObject) (algorithm : AlgorithmIdentifier)
    : string :=
  if bool_decide (name alg = "") then
    match algorithm with
    | AlgStr s => s
    | AlgObj _ => "[object Object]"
    end
  else name alg.

(** [sign] *)
Definition sign (algorithm : AlgorithmIdentifier) (key : CryptoKey)
    (data : BufferSource) : result bytes :=
  let dataBuffer := bufferOf data in
  let alg := normalize algorithm in
  if bool_decide (name alg = "Ed25519") then
    ed25519.ed25519Sign alg key (AB dataBuffer)
  else if is_string algorithm "HMAC" || bool_decide (name alg = "HMAC") then
    match _rawKey key with
    | None => Throw (Error "Key does not contain raw key material")
    | Some rawKey => hmac.hmacSign rawKey (AB dataBuffer)
    end
  else
    Throw (NotSupportedError ("Signing algorithm "
             +:+ name_or_algorithm alg algorithm +:+ " is not supported")).

(** [verify] *)
Definition verify (algorithm : AlgorithmIdentifier) (key : CryptoKey)
    (signature data : BufferSource) : result bool :=
  let sigBuffer := bufferOf signature in
  let dataBuffer := bufferOf data in
  let alg := normalize algorithm in
  if bool_decide (name alg = "Ed25519") then
    ed25519.ed25519Verify alg key (AB sigBuffer) (AB dataBuffer)
  else if is_string algorithm "HMAC" || bool_decide (name alg = "HMAC") then
    match _rawKey key with
    | None => Throw (Error "Key does not contain raw key material")
    | Some rawKey => hmac.hmacVerify rawKey (AB sigBuffer) (AB dataBuffer)
    end
  else
    Throw (NotSupportedError ("Verification algorithm "
             +:+ name_or_algorithm alg algorithm +:+ " is not supported")).

(** The object [{ name: "AES-GCM", iv: params.iv, tagLength:
    params.tagLength }] that [encrypt] and [decrypt] build. *)
Definition aesGcmParams (params : AlgObject) : AlgObject :=
  {| name := "AES-GCM"; modulusLength := NaN; publicExponent := None;
     hash := None; length_ := NaN; iv := iv params;
     tagLength := tagLength params; salt := None; iterations := NaN;
     label := None |}.

(** [encrypt]: the branch is chosen by [algorithm.name], read from the
    argument as it is. *)
Definition encrypt (algorithm : AlgorithmIdentifier) (key : CryptoKey)
    (data : BufferSource) : result bytes :=
  let dataBuffer := bufferOf data in
  match algorithm with
  | AlgObj params =>
      if bool_decide (name params = "RSA-OAEP") then
        rsa.rsaEncrypt params key (AB dataBuffer)
      else if bool_decide (name params = "AES-GCM") then
        aes.aesGcmEncrypt (aesGcmParams params) (aes.IsKey key) (AB dataBuffer)
      else
        Throw (NotSupportedError ("Encryption algorithm "
                 +:+ undefined_or (name_of algorithm) +:+ " is not supported"))
  | AlgStr _ =>
      Throw (NotSupportedError ("Encryption algorithm "
               +:+ undefined_or (name_of algorithm) +:+ " is not supported"))
  end.

(** [decrypt] *)
Definition decrypt (algorithm : AlgorithmIdentifier) (key : CryptoKey)
    (data : BufferSource) : result bytes :=
  let dataBuffer := bufferOf data in
  match algorithm with
  | AlgObj params =>
      if bool_decide (name params = "RSA-OAEP") then
        rsa.rsaDecrypt params key (AB dataBuffer)
      else if bool_decide (name params = "AES-GCM") then
        aes.aesGcmDecrypt (aesGcmParams params) (aes.IsKey key) (AB dataBuffer)
      else
        Throw (NotSupportedError ("Decryption algorithm "
                 +:+ undefined_or (name_of algorithm) +:+ " is not supported"))
  | AlgStr _ =>
      Throw (NotSupportedError ("Decryption algorithm "
               +:+ undefined_or (name_of algorithm) +:+ " is not supported"))
  end.

(** [deriveKey] *)
Definition deriveKey (algorithm : AlgorithmIdentifier) (baseKey : CryptoKey)
    (derivedKeyType : AlgObject) (extractable : bool) (keyUsages : list string)
    : result CryptoKey :=
  match algorithm with
  | AlgObj params =>
      if bool_decide (name params ≠ "PBKDF2") then
        Throw (NotSupportedError ("Key derivation algorithm "
                 +:+ undefined_or (name_of algorithm) +:+ " is not supported"))
      else
        match _rawKey baseKey with
        | None => Throw (Error "Base key does not contain raw key material")
        | Some rawKey =>
            pbkdf2.pbkdf2DeriveKey
              {| name := "PBKDF2"; modulusLength := NaN; publicExponent := None;
                 hash := hash params; length_ := NaN; iv := None;
                 tagLength := NaN; salt := salt params;
                 iterations := iterations params; label := None |}
              rawKey
              (aesKeyAlgorithm (length_ derivedKeyType))
        end
  | AlgStr _ =>
      Throw (NotSupportedError ("Key derivation algorithm "
               +:+ undefined_or (name_of algorithm) +:+ " is not supported"))
  end.


(** Unimplemented methods: whatever the arguments, a
    [NotSupportedError]. *)
Definition deriveBits (algorithm : AlgorithmIdentifier) (baseKey : CryptoKey)
    (length : jsnum) : result bytes :=
  Throw (NotSupportedError "deriveBits is not implemented").

Definition wrapKey (format : string) (key wrappingKey : CryptoKey)
    (wrapAlgorithm : AlgorithmIdentifier) : result bytes :=
  Throw (NotSupportedError "wrapKey is not implemented").

Definition unwrapKey (format : string) (wrappedKey : BufferSource)
    (unwrappingKey : CryptoKey)
    (unwrapAlgorithm unwrappedKeyAlgorithm : AlgorithmIdentifier)
    (extractable : bool) (keyUsages : list string) : result CryptoKey :=
  Throw (NotSupportedError "unwrapKey is not implemented").

End WithPrimitives.
End SubtleCryptoPolyfill.

(** ** Reference notions used in the statements *)

(** The big-endian integer that a run of bytes denotes: what the length
    bytes of a DER long-form length stand for. *)
Definition bigEndian (bs : bytes) : Z :=
  foldl (λ acc b, acc * 256 + byte_to_Z b) 0 bs.

(** The twelve bytes before the key in the SPKI container of an Ed25519
    public key, and the sixteen before the seed in its PKCS8 container. *)
Definition spki_prefix : bytes :=
  [x30; x2a; x30; x05; x06; x03; x2b; x65; x70; x03; x21; x00].
Definition pkcs8_prefix : bytes :=
  [x30; x2e; x02; x01; x00; x30; x05; x06; x03; x2b; x65; x70;
   x04; x22; x04; x20].

(** ** A stand-in for the libraries

    A small, fully defined instance of [Primitives] on which the model can
    be run: an "HMAC" and a "digest" that are a one-byte checksum, an
    authenticated cipher that leaves the data as it is and whose tag is the
    checksum of key, IV and data, repeated (its tag length is given in
    bits), RSA keys with no content. It only
    serves to evaluate the adapters on concrete inputs. *)
Module Sample.

Definition hexDigit (n : Z) : ascii :=
  ascii_of_nat (Z.to_nat (if bool_decide (n < 10) then 48 + n else 87 + n)).

(** Two lowercase hexadecimal digits per byte, as [toHex] writes them. *)
Fixpoint bytesToHex (bs : bytes) : string :=
  match bs with
  | [] => EmptyString
  | b :: bs' =>
      String (hexDigit (byte_to_Z b / 16))
        (String (hexDigit (byte_to_Z b mod 16)) (bytesToHex bs'))
  end.

Definition checksum (bs : bytes) : byte :=
  Z_to_byte (foldl (λ acc b, acc + byte_to_Z b) 0 bs).

(** The number of tag bytes for a tag length of [8 q] bits: a 16-byte tag
    cut by [16 mod q] bytes, that is [q * floor (16 / q)] bytes (16 for a
    tag length of 128, 12 for 96). *)
Definition tagBytes (tagLength : jsreal) : nat :=
  match tagLength with
  | Real t =>
      let q := (t / 8)%Q in
      if bool_decide (Qlt 0 q)
      then Z.to_nat (Qtrunc (q * inject_Z (Qfloor (16 / q))))
      else 16%nat
  | RNaN => 16%nat
  end.

Definition tagOf (key iv : bytes) (tagLength : jsreal) (data : bytes) : bytes :=
  replicate (tagBytes tagLength) (checksum (key ++ iv ++ data)).

Definition gcmEncrypt (key iv : bytes) (tagLength : jsreal) (data : bytes)
    : result (string * string) :=
  Ok (bytesToHex data, bytesToHex (tagOf key iv tagLength data)).

(** The tag handed in must have [tagLength / 8] bytes; the data is
    authentic when the tag is the one of the data. *)
Definition gcmDecrypt (key iv : bytes) (tagLength : jsreal) (tag data : bytes)
    : result (bool * string) :=
  if bool_decide (js_mul8 (Real (inject_Z (Z.of_nat (length tag)))) = tagLength) then
    Ok (bool_decide (tag = tagOf key iv tagLength data), bytesToHex data)
  else Throw (Error "Authentication tag does not match tag length.").

Definition signature64 (msg : bytes) : bytes := take 64 (msg ++ replicate 64 x00).

Definition primitives : Primitives := {|
  nacl_sign_keyPair := Ok (replicate 32 x01, replicate 32 x02 ++ replicate 32 x01);
  nacl_sign_keyPair_fromSeed := λ seed, Ok (replicate 32 x01, seed ++ replicate 32 x01);
  nacl_sign_detached := λ msg secretKey, Ok (signature64 msg);
  nacl_sign_detached_verify := λ msg sig publicKey,
    Ok (bool_decide (sig = signature64 msg));
  ForgePublicKey := unit;
  ForgePrivateKey := unit;
  forge_rsa_generateKeyPair := λ bits e, Ok (tt, tt);
  forge_publicKeyToPem := λ _, Ok "PUBLIC";
  forge_privateKeyToPem := λ _, Ok "PRIVATE";
  forge_publicKeyFromPem := λ _, Ok tt;
  forge_privateKeyFromPem := λ _, Ok tt;
  forge_publicKey_bitLength := λ _, Num 2048;
  forge_privateKey_bitLength := λ _, Num 2048;
  forge_rsa_oaep_encrypt := λ _ data, Ok (string_of_list_byte data);
  forge_rsa_oaep_decrypt := λ _ data, Ok (string_of_list_byte data);
  forge_aes_gcm_encrypt := gcmEncrypt;
  forge_aes_gcm_decrypt := gcmDecrypt;
  forge_hmac_sha256 := λ key data, bytesToHex [checksum (key ++ data)];
  forge_sha256 := λ data, bytesToHex [checksum data];
  forge_pbkdf2 := λ password salt iterations keyLength,
    Ok (string_of_list_byte (password ++ salt));
  pemToArrayBuffer := λ pem, Ok (list_byte_of_string pem);
  arrayBufferToPEM := λ buffer isPublic, Ok (string_of_list_byte buffer);
  crypto_getRandomValues := Some (λ n, Ok (replicate n x2a));
|}.

#[local] Existing Instance primitives.

(** An HMAC key with raw material and no usage at all, not extractable. *)
Definition hmacKey : CryptoKey :=
  with_rawKey
    (bareKey "secret" false
       (SubtleCryptoPolyfill.hmacKeyAlgorithm (Some "SHA-256") (Num 16)) [])
    [x01; x02].


(** A 256-bit AES-GCM key. *)
Definition aesKey : CryptoKey :=
  with_rawKey
    (bareKey "secret" true (SubtleCryptoPolyfill.aesKeyAlgorithm (Num 256))
       ["encrypt"; "decrypt"])
    (replicate 32 x07).

(** "Hello" *)
Definition hello : bytes := [x48; x65; x6c; x6c; x6f].

(** AES-GCM parameters with a 12-byte IV and the given tag length. *)
Definition gcmParams (tagLength : jsnum) : AlgObject :=
  {| name := "AES-GCM"; modulusLength := NaN; publicExponent := None;
     hash := None; length_ := NaN;
     iv := Some (Plain (U8 (u8_of_buffer (replicate 12 x09))));
     tagLength := tagLength; salt := None; iterations := NaN; label := None |}.

(** An SPKI container cut off three bytes into the key. *)
Definition truncatedSPKI : bytes := spki_prefix ++ [x01; x02; x03].

(** A PKCS8 container cut off three bytes into the seed. *)
Definition truncatedPKCS8 : bytes := pkcs8_prefix ++ [x01; x02; x03].

End Sample.

(** AES-GCM parameters with the IV in an [ArrayBuffer] and a tag length of
    96 bits. *)
Definition gcm96 (ivb : bytes) : AlgObject :=
  {| name := "AES-GCM"; modulusLength := NaN; publicExponent := None;
     hash := None; length_ := NaN; iv := Some (Plain (AB ivb));
     tagLength := Num 96; salt := None; iterations := NaN; label := None |}.

(** ** Proof helpers *)

(** The powers of two that bound the numbers of the code, as literals. *)
Ltac pow2 :=
  change (2 ^ 32) with 4294967296 in *;
  change (2 ^ 31) with 2147483648 in *;
  change (2 ^ 24) with 16777216 in *;
  change (2 ^ 8) with 256 in *.

(** A list of known length, spelled out element by element. *)
Ltac explode_list l H :=
  repeat (destruct l as [|? l]; [discriminate H|]; cbn [length] in H;
          apply Nat.succ_inj in H);
  destruct l; [clear H | discriminate H].

(** * Properties *)

(** ** The error monad, numbers and arrays *)

Lemma bind_Ok {A B} (a : A) (f : A → result B) : (Ok a ≫= f) = f a.
Proof. reflexivity. Qed.

Lemma bind_Throw {A B} (e : JsError) (f : A → result B) :
  (Throw e ≫= f) = Throw e.
Proof. reflexivity. Qed.

Lemma byte_to_Z_range (b : byte) : 0 ≤ byte_to_Z b < 256.
Proof.
  unfold byte_to_Z. pose proof (Byte.to_N_bounded b). lia.
Qed.

Lemma byte_to_Z_inj (a b : byte) : byte_to_Z a = byte_to_Z b → a = b.
Proof.
  unfold byte_to_Z. intros H. apply N2Z.inj in H.
  assert (Hs : Some a = Some b) by (rewrite <- !Byte.of_to_N; now f_equal).
  now injection Hs.
Qed.

(** [ToInt32] leaves a number of the signed 32-bit range as it is, and
    takes 2^32 off one of the upper half of the unsigned range. *)
Lemma wrap32_small (z : Z) : - (2 ^ 31) ≤ z < 2 ^ 31 → wrap32 z = z.
Proof.
  intros Hz. unfold wrap32. pow2. rewrite Z.mod_small by lia. lia.
Qed.

Lemma wrap32_high (z : Z) : 2 ^ 31 ≤ z < 2 ^ 32 → wrap32 z = z - 2 ^ 32.
Proof.
  intros Hz. unfold wrap32. pow2.
  replace (z + 2147483648) with ((z - 2147483648) + 1 * 4294967296) by lia.
  rewrite Z.mod_add by lia. rewrite Z.mod_small by lia. lia.
Qed.

(** Or-ing a byte into a multiple of 256 adds it. *)
Lemma lor_low_byte (m b : Z) : 0 ≤ b < 256 → Z.lor (m * 256) b = m * 256 + b.
Proof.
  intros Hb.
  assert (Hland : Z.land (m * 256) b = 0).
  { apply Z.bits_inj'. intros n Hn.
    rewrite Z.land_spec, Z.bits_0.
    destruct (Z.lt_ge_cases n 8) as [Hlt|Hge].
    - change 256 with (2 ^ 8). rewrite Z.mul_pow2_bits_low by lia. reflexivity.
    - destruct (Z.eq_dec b 0) as [->|Hb0].
      + rewrite Z.bits_0. apply andb_false_r.
      + rewrite (Z.bits_above_log2 b n); [apply andb_false_r | lia |].
        assert (Z.log2 b < 8) by (apply Z.log2_lt_pow2; lia). lia. }
  rewrite <- Z.lxor_lor by assumption.
  symmetry. apply Z.add_nocarry_lxor. assumption.
Qed.

(** Bit operations on bytes stay bytes. *)
Lemma below_256_log2 (z : Z) : 0 ≤ z → (z < 256 ↔ z = 0 ∨ Z.log2 z < 8).
Proof.
  intros Hz. destruct (Z.eq_dec z 0) as [->|Hne].
  - split; [now left | lia].
  - change 256 with (2 ^ 8). rewrite Z.log2_lt_pow2 by lia. intuition lia.
Qed.

Lemma lor_byte (a b : Z) : 0 ≤ a < 256 → 0 ≤ b < 256 → 0 ≤ Z.lor a b < 256.
Proof.
  intros Ha Hb. assert (0 ≤ Z.lor a b) by (apply Z.lor_nonneg; lia).
  split; [assumption|]. apply below_256_log2; [assumption|].
  rewrite Z.log2_lor by lia.
  destruct (proj1 (below_256_log2 a (proj1 Ha)) (proj2 Ha)) as [->|?];
  destruct (proj1 (below_256_log2 b (proj1 Hb)) (proj2 Hb)) as [->|?];
  right; cbn; lia.
Qed.

Lemma lxor_byte (a b : Z) : 0 ≤ a < 256 → 0 ≤ b < 256 → 0 ≤ Z.lxor a b < 256.
Proof.
  intros Ha Hb. assert (0 ≤ Z.lxor a b) by (apply Z.lxor_nonneg; lia).
  split; [assumption|]. apply below_256_log2; [assumption|].
  pose proof (Z.log2_lxor a b (proj1 Ha) (proj1 Hb)).
  destruct (Z.eq_dec (Z.lxor a b) 0); [now left|right].
  destruct (proj1 (below_256_log2 a (proj1 Ha)) (proj2 Ha)) as [->|?];
  destruct (proj1 (below_256_log2 b (proj1 Hb)) (proj2 Hb)) as [->|?];
  cbn in *; lia.
Qed.

Lemma u8_get_Some (l : bytes) (i : nat) (b : byte) :
  l !! i = Some b → u8_get l (Num (Z.of_nat i)) = Num (byte_to_Z b).
Proof.
  intros H. unfold u8_get. rewrite bool_decide_eq_true_2 by lia.
  now rewrite Nat2Z.id, H.
Qed.

Lemma u8_get_app (pre l : bytes) (i : nat) :
  u8_get (pre ++ l) (Num (Z.of_nat (length pre) + Z.of_nat i))
  = u8_get l (Num (Z.of_nat i)).
Proof.
  unfold u8_get. rewrite !bool_decide_eq_true_2 by lia.
  replace (Z.to_nat (Z.of_nat (length pre) + Z.of_nat i))
    with (length pre + i)%nat by lia.
  rewrite lookup_app_r, Nat2Z.id by lia.
  replace (length pre + i - length pre)%nat with i by lia. reflexivity.
Qed.

Lemma u8_get_app_0 (pre l : bytes) :
  u8_get (pre ++ l) (Num (Z.of_nat (length pre))) = u8_get l (Num 0).
Proof.
  rewrite <- (Z.add_0_r (Z.of_nat (length pre))). apply (u8_get_app pre l 0).
Qed.

(** [set] overwrites exactly the bytes under the source. *)
Lemma u8_set_over (pre mid suf src : bytes) :
  length mid = length src →
  u8_set (pre ++ mid ++ suf) src (length pre) = Ok (pre ++ src ++ suf).
Proof.
  intros Hlen. unfold u8_set.
  rewrite bool_decide_eq_true_2 by (rewrite !length_app; lia).
  rewrite take_app_length, drop_app_add, <- Hlen, drop_app_length.
  reflexivity.
Qed.

Lemma u8_set_at (a pre mid suf src : bytes) (offset : nat) :
  a = pre ++ mid ++ suf → offset = length pre → length mid = length src →
  u8_set a src offset = Ok (pre ++ src ++ suf).
Proof. intros -> -> Hlen. now apply u8_set_over. Qed.

Lemma u8_set_fill (pre src : bytes) (n offset : nat) :
  offset = length pre →
  u8_set (pre ++ replicate (length src + n) x00) src offset
  = Ok (pre ++ src ++ replicate n x00).
Proof.
  intros ->. rewrite replicate_add. apply u8_set_over. apply length_replicate.
Qed.

(** [new Uint8Array(1 + n)] with the tag stored in front. *)
Lemma u8_store_tag (tag : byte) (n : nat) :
  u8_store (u8_new (1 + n)) 0 tag = [tag] ++ replicate n x00.
Proof. reflexivity. Qed.

(** Two [set]s that fill a fresh array: the concatenation. *)
Lemma u8_set_concat (a b : bytes) :
  (result ← u8_set (u8_new (length a + length b)) a 0; u8_set result b (length a))
  = Ok (a ++ b).
Proof.
  unfold u8_new.
  rewrite (u8_set_at _ [] (replicate (length a) x00) (replicate (length b) x00) a);
    [| now rewrite replicate_add | reflexivity | apply length_replicate ].
  rewrite bind_Ok. cbn [app].
  rewrite (u8_set_at _ a (replicate (length b) x00) [] b);
    [| now rewrite app_nil_r | reflexivity | apply length_replicate ].
  now rewrite app_nil_r.
Qed.

(** [slice] between two indices inside the array. *)
Lemma u8_slice_inside (a : bytes) (i j : Z) :
  0 ≤ i ≤ j → j ≤ Z.of_nat (length a) →
  u8_slice a (Num i) (Num j) = take (Z.to_nat (j - i)) (drop (Z.to_nat i) a).
Proof.
  intros Hi Hj. unfold u8_slice, rel_index, ToInteger.
  rewrite !bool_decide_eq_false_2 by lia.
  rewrite !Z.min_l by lia. rewrite Z.max_l by lia. reflexivity.
Qed.

Lemma contents_u8_of_buffer (b : bytes) : contents (u8_of_buffer b) = b.
Proof. unfold contents, u8_of_buffer. cbn. apply firstn_all. Qed.

(** ** Ed25519Adapter.ts: reading a DER length *)

Section ReadLength.
Import ASN1.

Lemma high_bit (b : byte) :
  js_seq (js_and (Num (byte_to_Z b)) (Num 0x80)) (Num 0)
  = bool_decide (byte_to_Z b < 128).
Proof. destruct b; reflexivity. Qed.

Lemma low_seven_bits (b : byte) :
  js_and (Num (byte_to_Z b)) (Num 0x7f) = Num (byte_to_Z b mod 128).
Proof. destruct b; reflexivity. Qed.

Lemma bigEndian_snoc (bs : bytes) (b : byte) :
  bigEndian (bs ++ [b]) = bigEndian bs * 256 + byte_to_Z b.
Proof. unfold bigEndian. now rewrite foldl_snoc. Qed.

Lemma bigEndian_range (bs : bytes) :
  0 ≤ bigEndian bs < 256 ^ Z.of_nat (length bs).
Proof.
  induction bs as [|b bs IH] using rev_ind.
  - cbn. lia.
  - rewrite bigEndian_snoc, length_app, Nat2Z.inj_add, Z.pow_add_r by lia.
    cbn [length Z.of_nat Pos.of_succ_nat]. change (256 ^ 1) with 256.
    pose proof (byte_to_Z_range b). nia.
Qed.

(** One round of the loop: [(length << 8) | byte], in 32 bits. *)
Lemma readASN1Length_acc (x b : Z) :
  0 ≤ x < 2 ^ 24 → 0 ≤ b < 256 →
  js_or (js_shl (Num x) 8) (Num b) = Num (wrap32 (x * 256 + b)).
Proof.
  intros Hx Hb. unfold js_or, js_shl, ToInt32.
  change (8 mod 32) with 8.
  rewrite (wrap32_small x), (wrap32_small b) by (pow2; lia).
  rewrite Z.shiftl_mul_pow2 by lia. change (2 ^ 8) with 256.
  f_equal.
  destruct (Z.lt_ge_cases (x * 256) (2 ^ 31)) as [Hlt|Hge].
  - pow2. assert (x < 8388608) by lia.
    rewrite (wrap32_small (x * 256)), (wrap32_small (x * 256)),
      (wrap32_small (x * 256 + b)) by (pow2; lia).
    apply lor_low_byte; lia.
  - pow2. assert (8388608 ≤ x) by lia.
    rewrite (wrap32_high (x * 256)), (wrap32_high (x * 256 + b)) by (pow2; lia).
    rewrite (wrap32_small (x * 256 - 2 ^ 32)) by (pow2; lia).
    replace (x * 256 - 2 ^ 32) with ((x - 2 ^ 24) * 256) by (pow2; lia).
    rewrite lor_low_byte by lia. pow2; lia.
Qed.

(** The loop of [readASN1Length] reads the bytes that follow the first
    one, in order. *)
Lemma readASN1Length_loop (pre bs suf : bytes) (b : byte) (acc : jsnum) :
  foldl (readASN1Length_step (pre ++ b :: bs ++ suf) (Num (Z.of_nat (length pre))))
        acc (seqZ 0 (Z.of_nat (length bs)))
  = foldl (λ length b', js_or (js_shl length 8) (Num (byte_to_Z b'))) acc bs.
Proof.
  revert suf. induction bs as [|x bs IH] using rev_ind; intros suf.
  - reflexivity.
  - rewrite length_app, Nat2Z.inj_add.
    rewrite seqZ_app by lia. rewrite !foldl_app.
    rewrite <- (app_assoc bs [x] suf). rewrite IH.
    change (seqZ _ (Z.of_nat (length [x]))) with [Z.of_nat (length bs)].
    cbn [foldl]. unfold readASN1Length_step, js_add. f_equal.
    replace (Z.of_nat (length pre) + 1 + Z.of_nat (length bs))
      with (Z.of_nat (length (pre ++ b :: bs)) + Z.of_nat 0)
      by (rewrite length_app; cbn [length]; lia).
    replace (pre ++ b :: bs ++ [x] ++ suf) with ((pre ++ b :: bs) ++ x :: suf)
      by (rewrite <- app_assoc; reflexivity).
    rewrite u8_get_app. reflexivity.
Qed.

(** Over at most four bytes the loop computes their big-endian integer,
    reduced to a signed 32-bit integer. *)
Lemma readASN1Length_value (bs : bytes) :
  (length bs ≤ 4)%nat →
  foldl (λ length b', js_or (js_shl length 8) (Num (byte_to_Z b'))) (Num 0) bs
  = Num (wrap32 (bigEndian bs)).
Proof.
  induction bs as [|x bs IH] using rev_ind; intros Hlen.
  - reflexivity.
  - rewrite length_app in Hlen. cbn [length] in Hlen.
    rewrite foldl_snoc, IH, bigEndian_snoc by lia.
    pose proof (bigEndian_range bs) as Hr.
    assert (256 ^ Z.of_nat (length bs) ≤ 256 ^ 3)
      by (apply Z.pow_le_mono_r; lia).
    change (256 ^ 3) with 16777216 in *.
    rewrite (wrap32_small (bigEndian bs)) by (pow2; lia).
    apply readASN1Length_acc; [pow2; lia | apply byte_to_Z_range].
Qed.

(** Short form: the first byte is the length. *)
Lemma readASN1Length_short (pre suf : bytes) (b : byte) :
  byte_to_Z b < 128 →
  readASN1Length (pre ++ b :: suf) (Num (Z.of_nat (length pre)))
  = Ok {| value := Num (byte_to_Z b); bytesRead := Num 1 |}.
Proof.
  intros Hb. unfold readASN1Length.
  unfold js_ge, u8_length. rewrite length_app. cbn [length].
  rewrite bool_decide_eq_false_2 by lia.
  rewrite u8_get_app_0.
  change (u8_get (b :: suf) (Num 0)) with (Num (byte_to_Z b)).
  rewrite high_bit, bool_decide_eq_true_2 by assumption. reflexivity.
Qed.

(** Long form, one to four length bytes [bs] after the first byte: the
    value is their big-endian integer reduced to a signed 32-bit integer. *)
Lemma readASN1Length_long (pre bs suf : bytes) (b : byte) :
  128 ≤ byte_to_Z b →
  Z.of_nat (length bs) = byte_to_Z b - 128 →
  (1 ≤ length bs ≤ 4)%nat →
  readASN1Length (pre ++ b :: bs ++ suf) (Num (Z.of_nat (length pre)))
  = Ok {| value := Num (wrap32 (bigEndian bs));
          bytesRead := Num (1 + Z.of_nat (length bs)) |}.
Proof.
  intros Hb Hk Hlen. pose proof (byte_to_Z_range b) as Hr.
  unfold readASN1Length.
  rewrite u8_get_app_0.
  change (u8_get (b :: bs ++ suf) (Num 0)) with (Num (byte_to_Z b)).
  rewrite high_bit, bool_decide_eq_false_2 by lia.
  rewrite low_seven_bits.
  replace (byte_to_Z b mod 128) with (Z.of_nat (length bs)).
  2:{ rewrite Hk.
      replace (byte_to_Z b) with ((byte_to_Z b - 128) + 1 * 128) at 2 by lia.
      rewrite Z.mod_add by lia. rewrite Z.mod_small; lia. }
  cbn [ToInteger]. rewrite readASN1Length_loop, readASN1Length_value by lia.
  unfold js_ge, js_seq, js_gt, js_lt, js_add, u8_length.
  rewrite !length_app. cbn [length]. rewrite length_app.
  rewrite bool_decide_eq_false_2 by lia.
  rewrite bool_decide_eq_false_2 by lia.
  rewrite bool_decide_eq_false_2 by lia. cbn [orb].
  rewrite bool_decide_eq_false_2 by lia.
  reflexivity.
Qed.

(** As long as the big-endian integer is below 2^31 (always so with one,
    two or three length bytes), it is the value returned. *)
Lemma readASN1Length_long_exact (pre bs suf : bytes) (b : byte) :
  128 ≤ byte_to_Z b →
  Z.of_nat (length bs) = byte_to_Z b - 128 →
  (1 ≤ length bs ≤ 4)%nat →
  bigEndian bs < 2 ^ 31 →
  readASN1Length (pre ++ b :: bs ++ suf) (Num (Z.of_nat (length pre)))
  = Ok {| value := Num (bigEndian bs);
          bytesRead := Num (1 + Z.of_nat (length bs)) |}.
Proof.
  intros Hb Hk Hlen Hsmall.
  rewrite readASN1Length_long by assumption.
  pose proof (bigEndian_range bs).
  rewrite wrap32_small by (pow2; lia). reflexivity.
Qed.

(** No length byte, or more than four: refused. *)
Lemma readASN1Length_long_refused (pre suf : bytes) (b : byte) :
  128 ≤ byte_to_Z b →
  byte_to_Z b = 128 ∨ 4 < byte_to_Z b - 128 →
  readASN1Length (pre ++ b :: suf) (Num (Z.of_nat (length pre)))
  = Throw (Error "Invalid ASN.1: invalid length encoding").
Proof.
  intros Hb Hk. pose proof (byte_to_Z_range b) as Hr.
  unfold readASN1Length.
  rewrite u8_get_app_0.
  change (u8_get (b :: suf) (Num 0)) with (Num (byte_to_Z b)).
  rewrite high_bit, bool_decide_eq_false_2 by lia.
  rewrite low_seven_bits.
  assert (Hmod : byte_to_Z b mod 128 = byte_to_Z b - 128).
  { replace (byte_to_Z b) with ((byte_to_Z b - 128) + 1 * 128) at 1 by lia.
    rewrite Z.mod_add by lia. rewrite Z.mod_small; lia. }
  rewrite Hmod.
  unfold js_ge, js_seq, js_gt, js_lt, u8_length.
  rewrite length_app. cbn [length].
  rewrite bool_decide_eq_false_2 by lia.
  destruct Hk as [Hk|Hk].
  - rewrite bool_decide_eq_true_2 by lia. reflexivity.
  - rewrite (bool_decide_eq_true_2 (4 < _)) by lia. rewrite orb_true_r.
    reflexivity.
Qed.

(** C5: the long form is specified to return the big-endian integer of its
    length bytes. With four length bytes whose first has its high bit set
    the code returns another number: the big-endian integer of
    [80 00 00 00] is 2147483648, and [readASN1Length] returns -2147483648,
    since [<<] and [|] work on signed 32-bit integers. *)
Theorem readASN1Length_four_bytes_high_bit :
  bigEndian [x80; x00; x00; x00] = 2147483648
  ∧ readASN1Length [x84; x80; x00; x00; x00] (Num 0)
    = Ok {| value := Num (-2147483648); bytesRead := Num 5 |}.
Proof. split; reflexivity. Qed.

(** With that negative length for the AlgorithmIdentifier, the walk steps
    backwards and a container that is no SPKI at all is accepted. *)
Example negative_length_accepted :
  extractEd25519PublicKeyFromSPKI
    [x30; x82; x03; x21; x30; x84; xff; xff; xff; xf8; x01; x02; x03]
  = Ok [x84; xff; xff; xff; xf8; x01; x02; x03].
Proof. reflexivity. Qed.

End ReadLength.

(** ** Ed25519Adapter.ts: the DER encoders and the containers *)

Section Containers.
Import ASN1.

Lemma totalLength_from (items : list bytes) (n : nat) :
  foldl (λ acc item, acc + length item)%nat n items
  = (n + length (concat items))%nat.
Proof.
  revert n. induction items as [|item items IH]; intros n; simpl.
  - lia.
  - rewrite IH, length_app. lia.
Qed.

Lemma totalLength_concat (items : list bytes) :
  totalLength items = length (concat items).
Proof. unfold totalLength. now rewrite totalLength_from. Qed.

Lemma encodeASN1Sequence_step_eq (res : bytes) (pos : nat) (item : bytes) :
  encodeASN1Sequence_step (res, pos) item
  = (result' ← u8_set res item pos; mret (result', (pos + length item)%nat)).
Proof. reflexivity. Qed.

(** The copy loop of [encodeASN1Sequence] lays the items out one after the
    other over the zeroes. *)
Lemma encodeASN1Sequence_loop (items : list bytes) (pre : bytes) :
  foldM encodeASN1Sequence_step
    (pre ++ replicate (length (concat items)) x00, length pre) items
  = Ok (pre ++ concat items, (length pre + length (concat items))%nat).
Proof.
  revert pre. induction items as [|item items IH]; intros pre; cbn [foldM concat].
  - rewrite !app_nil_r, Nat.add_0_r. reflexivity.
  - rewrite encodeASN1Sequence_step_eq, length_app, u8_set_fill, !bind_Ok by done.
    specialize (IH (pre ++ item)).
    rewrite length_app, <- !app_assoc in IH. rewrite IH.
    f_equal. f_equal. lia.
Qed.

(** A SEQUENCE is its tag, the length of its contents and its contents. *)
Lemma encodeASN1Sequence_eq (items : list bytes) :
  encodeASN1Sequence items
  = Ok (x30 :: encodeASN1Length (Z.of_nat (length (concat items)))
            ++ concat items).
Proof.
  unfold encodeASN1Sequence. rewrite totalLength_concat.
  set (lengthBytes := encodeASN1Length _).
  rewrite <- Nat.add_assoc, u8_store_tag.
  rewrite (u8_set_fill [x30]), bind_Ok by done.
  change (foldM _ _ items)
    with (foldM encodeASN1Sequence_step
            ((x30 :: lengthBytes) ++ replicate (length (concat items)) x00,
             length (x30 :: lengthBytes))
            items).
  rewrite encodeASN1Sequence_loop, bind_Ok. reflexivity.
Qed.

(** OCTET STRING and INTEGER: tag, length, data. *)
Lemma tag_length_data (tag : byte) (data : bytes) :
  let lengthBytes := encodeASN1Length (Z.of_nat (length data)) in
  (result ← u8_set (u8_store (u8_new (1 + length lengthBytes + length data)) 0 tag)
                   lengthBytes 1;
   u8_set result data (1 + length lengthBytes))
  = Ok (tag :: lengthBytes ++ data).
Proof.
  intros lengthBytes.
  rewrite <- Nat.add_assoc, u8_store_tag.
  rewrite (u8_set_fill [tag]), bind_Ok by done.
  rewrite <- (app_nil_r (replicate _ _)), app_assoc.
  rewrite (u8_set_over ([tag] ++ lengthBytes))
    by (rewrite ?length_app, ?length_replicate; done).
  rewrite app_nil_r, <- app_assoc. reflexivity.
Qed.

Lemma encodeASN1OctetString_eq (data : bytes) :
  encodeASN1OctetString data
  = Ok (x04 :: encodeASN1Length (Z.of_nat (length data)) ++ data).
Proof. apply tag_length_data. Qed.

Lemma encodeASN1Integer_eq (data : bytes) :
  encodeASN1Integer data
  = Ok (x02 :: encodeASN1Length (Z.of_nat (length data)) ++ data).
Proof. apply tag_length_data. Qed.

(** A BIT STRING is its tag, its length, the "0 unused bits" byte and the
    data. *)
Lemma encodeASN1BitString_eq (data : bytes) :
  encodeASN1BitString data
  = Ok (x03 :: encodeASN1Length (Z.of_nat (1 + length data)) ++ x00 :: data).
Proof.
  unfold encodeASN1BitString.
  set (lengthBytes := encodeASN1Length _).
  rewrite <- (Nat.add_assoc 1 (length lengthBytes) (1 + length data)), u8_store_tag.
  rewrite (u8_set_fill [x03]), bind_Ok by done.
  rewrite (u8_set_at _ (x03 :: lengthBytes ++ [x00])
             (replicate (length data) x00) [] data).
  - rewrite app_nil_r. cbn [app]. rewrite <- app_assoc. reflexivity.
  - unfold u8_store. rewrite (app_assoc [x03]).
    rewrite (insert_app_r_alt ([x03] ++ lengthBytes)) by (simpl; lia).
    replace (1 + length lengthBytes - length ([x03] ++ lengthBytes))%nat
      with 0%nat by (simpl; lia).
    cbn [insert list_insert app replicate Nat.add].
    rewrite app_nil_r, <- app_assoc. reflexivity.
  - simpl. rewrite length_app. simpl. lia.
  - apply length_replicate.
Qed.

(** The short form of a length: one byte, the length itself. *)
Lemma encodeASN1Length_short (n : Z) :
  n < 128 → encodeASN1Length n = [Z_to_byte n].
Proof.
  intros Hn. unfold encodeASN1Length. now rewrite bool_decide_eq_true_2.
Qed.

(** The long form: [0x82 0x01 0x2c] for 300. *)
Example encodeASN1Length_300 : encodeASN1Length 300 = [x82; x01; x2c].
Proof. reflexivity. Qed.

(** The containers of a 32-byte key: fixed bytes, then the key. *)
Lemma encodeEd25519PublicKeyToSPKI_eq (publicKey : bytes) :
  length publicKey = 32%nat →
  encodeEd25519PublicKeyToSPKI publicKey = Ok (spki_prefix ++ publicKey).
Proof.
  intros Hlen. unfold encodeEd25519PublicKeyToSPKI, u8_length.
  rewrite Hlen.
  change (js_sne (Num (Z.of_nat 32)) (Num ED25519_PUBLIC_KEY_SIZE)) with false.
  cbv iota.
  rewrite encodeASN1Sequence_eq, bind_Ok, encodeASN1BitString_eq, bind_Ok.
  rewrite encodeASN1Sequence_eq, bind_Ok.
  rewrite Hlen.
  change (encodeASN1Length (Z.of_nat (1 + 32))) with [x21].
  change (encodeASN1Length (Z.of_nat (length (concat [oid])))) with [x05].
  cbn [concat app oid length]. rewrite app_nil_r. cbn [length]. rewrite Hlen.
  reflexivity.
Qed.

Lemma encodeEd25519PrivateKeyToPKCS8_eq (seed : bytes) :
  length seed = 32%nat →
  encodeEd25519PrivateKeyToPKCS8 seed = Ok (pkcs8_prefix ++ seed).
Proof.
  intros Hlen. unfold encodeEd25519PrivateKeyToPKCS8, u8_length.
  rewrite Hlen.
  change (js_sne (Num (Z.of_nat 32)) (Num ED25519_SEED_SIZE)) with false.
  cbv iota.
  rewrite encodeASN1Integer_eq, bind_Ok, encodeASN1Sequence_eq, bind_Ok.
  rewrite encodeASN1OctetString_eq, bind_Ok.
  rewrite encodeASN1OctetString_eq, bind_Ok.
  rewrite encodeASN1Sequence_eq, bind_Ok.
  rewrite Hlen.
  change (encodeASN1Length (Z.of_nat 32)) with [x20].
  change (encodeASN1Length (Z.of_nat (length [x00]))) with [x01].
  change (encodeASN1Length (Z.of_nat (length (concat [oid])))) with [x05].
  cbn [concat app oid length]. rewrite Hlen.
  change (encodeASN1Length (Z.of_nat 34)) with [x22].
  cbn [concat app oid length]. rewrite app_nil_r. cbn [length]. rewrite Hlen.
  reflexivity.
Qed.

(** Any other size is refused by the encoders. *)
Lemma encodeEd25519PublicKeyToSPKI_size (publicKey : bytes) :
  length publicKey ≠ 32%nat →
  isThrow (encodeEd25519PublicKeyToSPKI publicKey) = true.
Proof.
  intros Hlen. unfold encodeEd25519PublicKeyToSPKI, u8_length, js_sne, js_seq.
  rewrite bool_decide_eq_false_2; [reflexivity|].
  unfold ED25519_PUBLIC_KEY_SIZE. lia.
Qed.

(** Parsing reads the fixed bytes and returns the 32 bytes after them. *)
Lemma extractEd25519PublicKeyFromSPKI_prefix (publicKey : bytes) :
  length publicKey = 32%nat →
  extractEd25519PublicKeyFromSPKI (spki_prefix ++ publicKey) = Ok publicKey.
Proof.
  intros Hlen. explode_list publicKey Hlen. vm_compute. reflexivity.
Qed.

Lemma extractEd25519PrivateKeyFromPKCS8_prefix (seed : bytes) :
  length seed = 32%nat →
  extractEd25519PrivateKeyFromPKCS8 (pkcs8_prefix ++ seed) = Ok seed.
Proof.
  intros Hlen. explode_list seed Hlen. vm_compute. reflexivity.
Qed.

(** C4: parsing the SPKI encoding of a 32-byte public key gives the key
    back, and parsing the PKCS8 encoding of a 32-byte seed gives the seed
    back. *)
Theorem ed25519_der_round_trip (pk s : bytes) :
  length pk = 32%nat → length s = 32%nat →
  (spki ← encodeEd25519PublicKeyToSPKI pk;
   extractEd25519PublicKeyFromSPKI spki) = Ok pk
  ∧ (pkcs8 ← encodeEd25519PrivateKeyToPKCS8 s;
     extractEd25519PrivateKeyFromPKCS8 pkcs8) = Ok s.
Proof.
  intros Hpk Hs. split.
  - rewrite encodeEd25519PublicKeyToSPKI_eq, bind_Ok by assumption.
    now apply extractEd25519PublicKeyFromSPKI_prefix.
  - rewrite encodeEd25519PrivateKeyToPKCS8_eq, bind_Ok by assumption.
    now apply extractEd25519PrivateKeyFromPKCS8_prefix.
Qed.

Lemma ed25519_der_round_trip_witness :
  (spki ← encodeEd25519PublicKeyToSPKI (replicate 32 x07);
   extractEd25519PublicKeyFromSPKI spki) = Ok (replicate 32 x07)
  ∧ (pkcs8 ← encodeEd25519PrivateKeyToPKCS8 (replicate 32 x09);
     extractEd25519PrivateKeyFromPKCS8 pkcs8) = Ok (replicate 32 x09).
Proof.
  apply (ed25519_der_round_trip (replicate 32 x07) (replicate 32 x09));
    reflexivity.
Defined.

(** C6: a payload of any size other than 32 bytes is specified to throw.
    A container cut off three bytes into the key does not: every tag is in
    place and the declared lengths are the right ones, so no check fires,
    and [slice] returns the three bytes that are there, a 3-byte key and
    no error. *)
Theorem truncated_container_accepted :
  extractEd25519PublicKeyFromSPKI Sample.truncatedSPKI = Ok [x01; x02; x03]
  ∧ extractEd25519PrivateKeyFromPKCS8 Sample.truncatedPKCS8 = Ok [x01; x02; x03].
Proof. split; reflexivity. Qed.

(** What the checks do catch: a wrong outer tag, and a declared BIT STRING
    length other than 33. *)
Example wrong_outer_tag :
  extractEd25519PublicKeyFromSPKI (x31 :: drop 1 Sample.truncatedSPKI)
  = Throw (Error "Invalid SPKI format: expected SEQUENCE").
Proof. reflexivity. Qed.

Example wrong_declared_size :
  extractEd25519PublicKeyFromSPKI
    [x30; x2a; x30; x05; x06; x03; x2b; x65; x70; x03; x20; x00; x01; x02; x03]
  = Throw (Error "Invalid Ed25519 public key size: expected 32, got 31").
Proof. reflexivity. Qed.

End Containers.

(** ** Ed25519Adapter.ts: export, then import *)

Section Ed25519Keys.
Context {P : Primitives}.
Import ASN1 ed25519.

(** Exporting a 32-byte public key and importing the result restores the
    key bytes. *)
Lemma ed25519_export_import_public (key : CryptoKey) (pk : bytes)
    (alg : AlgObject) (ext : bool) (keyUsages : list string) :
  _rawPublicKey key = Some pk → length pk = 32%nat →
  (spki ← ed25519ExportKey "spki" key;
   ed25519ImportKey "spki" spki alg ext keyUsages)
  = Ok (with_rawPublicKey (bareKey "public" ext alg keyUsages) pk).
Proof.
  intros Hpk Hlen. unfold ed25519ExportKey, ed25519ImportKey.
  change (bool_decide ("spki" = "spki")) with true. cbv iota. rewrite Hpk.
  rewrite encodeEd25519PublicKeyToSPKI_eq, bind_Ok by assumption.
  rewrite extractEd25519PublicKeyFromSPKI_prefix, bind_Ok by assumption.
  reflexivity.
Qed.

(** Exporting a secret key and importing the result hands TweetNaCl the
    first 32 bytes of the secret key as the seed. *)
Lemma ed25519_export_import_private (key : CryptoKey) (sk : bytes)
    (alg : AlgObject) (ext : bool) (keyUsages : list string) :
  _rawPrivateKey key = Some sk → (32 ≤ length sk)%nat →
  (pkcs8 ← ed25519ExportKey "pkcs8" key;
   ed25519ImportKey "pkcs8" pkcs8 alg ext keyUsages)
  = (keyPair ← nacl_sign_keyPair_fromSeed (take 32 sk);
     Ok (with_rawPrivateKey (bareKey "private" ext alg keyUsages) keyPair.2)).
Proof.
  intros Hsk Hlen. unfold ed25519ExportKey, ed25519ImportKey.
  change (bool_decide ("pkcs8" = "spki")) with false. cbv iota. rewrite Hsk.
  rewrite u8_slice_inside by (unfold ED25519_SEED_SIZE; lia).
  change (Z.to_nat (ED25519_SEED_SIZE - 0)) with 32%nat.
  change (Z.to_nat 0) with 0%nat. rewrite drop_0.
  assert (Hseed : length (take 32 sk) = 32%nat) by (rewrite length_take; lia).
  rewrite encodeEd25519PrivateKeyToPKCS8_eq, bind_Ok by assumption.
  rewrite extractEd25519PrivateKeyFromPKCS8_prefix, bind_Ok by assumption.
  reflexivity.
Qed.

End Ed25519Keys.

(** ** HMACAdapter.ts *)

Section HmacFacts.
Context {P : Primitives}.
Import hmac.

(** One round of the comparison loop, on two bytes. *)
Lemma hmacVerify_acc (z : Z) (a b : byte) :
  0 ≤ z < 256 →
  ∃ z', js_or (Num z) (js_xor (Num (byte_to_Z a)) (Num (byte_to_Z b))) = Num z'
        ∧ 0 ≤ z' < 256 ∧ (z' = 0 ↔ z = 0 ∧ a = b).
Proof.
  intros Hz. pose proof (byte_to_Z_range a) as Ha.
  pose proof (byte_to_Z_range b) as Hb.
  pose proof (lxor_byte _ _ Ha Hb) as Hx.
  unfold js_or, js_xor, ToInt32.
  rewrite (wrap32_small (byte_to_Z a)), (wrap32_small (byte_to_Z b)),
    (wrap32_small z) by (pow2; lia).
  rewrite (wrap32_small (Z.lxor _ _)) by (pow2; lia).
  eexists. split; [reflexivity|]. split; [now apply lor_byte|].
  rewrite Z.lor_eq_0_iff, Z.lxor_eq_0_iff. split.
  - intros [-> Hab]. split; [reflexivity | now apply byte_to_Z_inj].
  - intros [-> ->]. split; reflexivity.
Qed.

(** The loop accumulates zero exactly when the bytes compared so far are
    the same. *)
Lemma hmacVerify_loop (sigBytes expectedBytes : bytes) (k : nat) :
  (k ≤ length sigBytes)%nat → (k ≤ length expectedBytes)%nat →
  ∃ z, foldl (hmacVerify_step sigBytes expectedBytes) (Num 0)
             (seqZ 0 (Z.of_nat k)) = Num z
       ∧ 0 ≤ z < 256
       ∧ (z = 0 ↔ take k sigBytes = take k expectedBytes).
Proof.
  induction k as [|k IH]; intros Hs He.
  - exists 0. split; [reflexivity|]. split; [lia|]. now rewrite !take_0.
  - destruct IH as (z & Hfold & Hz & Hiff); [lia..|].
    destruct (lookup_lt_is_Some_2 sigBytes k) as [a Ha]; [lia|].
    destruct (lookup_lt_is_Some_2 expectedBytes k) as [b Hb]; [lia|].
    rewrite Nat2Z.inj_succ, <- Z.add_1_r, seqZ_app by lia.
    rewrite foldl_app, Hfold.
    change (seqZ (0 + Z.of_nat k) 1) with [Z.of_nat k]. cbn [foldl].
    unfold hmacVerify_step.
    rewrite (u8_get_Some _ _ _ Ha), (u8_get_Some _ _ _ Hb).
    destruct (hmacVerify_acc z a b Hz) as (z' & Heq & Hz' & Hiff').
    exists z'. split; [assumption|]. split; [assumption|].
    rewrite (take_S_r _ _ _ Ha), (take_S_r _ _ _ Hb), Hiff', Hiff.
    split.
    + intros [-> ->]. reflexivity.
    + intros H. apply app_inj_tail in H. assumption.
Qed.

(** [hmacSign] always returns: the bytes of forge's digest. *)
Lemma hmacSign_eq (key : bytes) (data : ArrayBufferOrUint8Array) :
  hmacSign key data
  = Ok (hexToBytes (forge_hmac_sha256 key (buffer (asUint8Array data)))).
Proof. reflexivity. Qed.

(** [hmacVerify] always returns, and answers whether the signature is the
    expected one. *)
Lemma hmacVerify_eq (key : bytes) (signature data : ArrayBufferOrUint8Array)
    (expected : bytes) :
  hmacSign key data = Ok expected →
  hmacVerify key signature data
  = Ok (bool_decide (contents (asUint8Array signature) = expected)).
Proof.
  intros Hsign. unfold hmacVerify. rewrite Hsign, bind_Ok.
  set (sigBytes := contents (asUint8Array signature)).
  unfold js_sne, js_seq, u8_length.
  destruct (decide (length sigBytes = length expected)) as [Hlen|Hlen].
  - rewrite bool_decide_eq_true_2 by lia. cbn [negb].
    destruct (hmacVerify_loop sigBytes expected (length sigBytes))
      as (z & Hfold & Hz & Hiff); [lia..|].
    rewrite Hfold. unfold mret, result_ret. f_equal.
    rewrite firstn_all in Hiff. rewrite Hlen, firstn_all in Hiff.
    apply bool_decide_ext. assumption.
  - rewrite bool_decide_eq_false_2 by lia. cbn [negb].
    unfold mret, result_ret. f_equal. symmetry.
    apply bool_decide_eq_false_2. intros Heq. now rewrite Heq in Hlen.
Qed.

(** C7: verifying the signature of a message against that message
    returns true; against a message with another HMAC under the key it
    returns false, and does not throw. *)
Theorem hmac_verify_symmetry (key : bytes) (m m' : ArrayBufferOrUint8Array) :
  (sig ← hmacSign key m; hmacVerify key (AB sig) m) = Ok true
  ∧ (hmacSign key m' ≠ hmacSign key m →
     (sig ← hmacSign key m; hmacVerify key (AB sig) m') = Ok false).
Proof.
  split.
  - rewrite (hmacSign_eq key m), bind_Ok.
    rewrite (hmacVerify_eq key _ m _ (hmacSign_eq key m)).
    change (asUint8Array (AB ?b)) with (u8_of_buffer b).
    rewrite contents_u8_of_buffer, bool_decide_eq_true_2; reflexivity.
  - intros Hdiff. rewrite (hmacSign_eq key m), bind_Ok.
    rewrite (hmacVerify_eq key _ m' _ (hmacSign_eq key m')).
    change (asUint8Array (AB ?b)) with (u8_of_buffer b).
    rewrite contents_u8_of_buffer, bool_decide_eq_false_2; [reflexivity|].
    intros Heq. apply Hdiff. rewrite !hmacSign_eq. now rewrite Heq.
Qed.

End HmacFacts.

(** ** AESAdapter.ts *)

Section AesFacts.
Context {P : Primitives}.
Import aes.

(** With a tag length of 96 bits, [aesGcmEncrypt] asks forge for a tag
    length of 12 and returns the output followed by the tag. *)
Lemma aesGcmEncrypt_96 (key : KeyOrBuffer) (ivb data : bytes) :
  aesGcmEncrypt (gcm96 ivb) key (AB data)
  = (out ← forge_aes_gcm_encrypt (keyBytesOf key) ivb (Real 12) data;
     Ok (hexToBytes out.1 ++ hexToBytes out.2)).
Proof.
  unfold aesGcmEncrypt. cbn [ivBufferEncrypt iv gcm96]. rewrite bind_Ok.
  change (js_div8 (tagLength_or_128 (gcm96 ivb))) with (Real 12).
  change (buffer (asUint8Array (AB data))) with data.
  destruct (forge_aes_gcm_encrypt _ _ _ _) as [out|e]; [|reflexivity].
  rewrite !bind_Ok. apply u8_set_concat.
Qed.

(** With the same tag length, [aesGcmDecrypt] cuts the last 12 bytes off
    as the tag and asks forge for a tag length of 96. *)
Lemma aesGcmDecrypt_96 (key : KeyOrBuffer) (ivb blob : bytes) :
  aesGcmDecrypt (gcm96 ivb) key (AB blob)
  = if bool_decide (length blob < 12)%nat then
      Throw (Error "Encrypted data too short (missing tag)")
    else
      out ← forge_aes_gcm_decrypt (keyBytesOf key) ivb (Real 96)
              (drop (length blob - 12) blob) (take (length blob - 12) blob);
      if (out.1 : bool) then Ok (hexToBytes out.2)
      else Throw (Error "AES-GCM decryption failed: authentication tag mismatch").
Proof.
  unfold aesGcmDecrypt. cbn [ivBufferDecrypt iv gcm96]. rewrite bind_Ok.
  change (js_div8 (tagLength_or_128 (gcm96 ivb))) with (Real 12).
  change (js_mul8 (Real 12)) with (Real 96).
  change (asUint8Array (AB blob)) with (u8_of_buffer blob).
  rewrite contents_u8_of_buffer.
  unfold int_lt_real.
  rewrite (bool_decide_ext (inject_Z (Z.of_nat (length blob)) < 12)%Q
             (length blob < 12)%nat)
    by (unfold Qlt; cbn; lia).
  case_bool_decide as Hlen; [reflexivity|].
  unfold u8_slice_real, u8_slice_from_real, u8_slice_from, u8_length,
    int_sub_real, real_ToInteger.
  assert (Htr : Qtrunc (inject_Z (Z.of_nat (length blob)) - 12)
                = Z.of_nat (length blob) - 12).
  { unfold Qtrunc. cbn. rewrite Z.quot_1_r. lia. }
  rewrite Htr. change (Qtrunc 0) with 0.
  rewrite !u8_slice_inside by lia.
  replace (Z.to_nat (Z.of_nat (length blob) - 12 - 0))
    with (length blob - 12)%nat by lia.
  replace (Z.to_nat (Z.of_nat (length blob) - 12))
    with (length blob - 12)%nat by lia.
  change (Z.to_nat 0) with 0%nat. rewrite drop_0.
  rewrite take_ge by (rewrite length_drop; lia).
  destruct (forge_aes_gcm_decrypt _ _ _ _ _) as [[ok out]|e]; [|reflexivity].
  rewrite bind_Ok. destruct ok; reflexivity.
Qed.

(** C3: the round trip is specified for every tag length. With a tag
    length of 96 bits the two directions disagree on the unit: whatever
    forge computes, [aesGcmEncrypt] hands it the tag length 12 (bits
    divided by 8) and [aesGcmDecrypt] hands it 96 for the same parameters,
    after cutting 12 bytes off as the tag. *)
Theorem aes_gcm_tag_length_units (key : KeyOrBuffer) (ivb data blob : bytes) :
  aesGcmEncrypt (gcm96 ivb) key (AB data)
  = (out ← forge_aes_gcm_encrypt (keyBytesOf key) ivb (Real 12) data;
     Ok (hexToBytes out.1 ++ hexToBytes out.2))
  ∧ aesGcmDecrypt (gcm96 ivb) key (AB blob)
    = if bool_decide (length blob < 12)%nat then
        Throw (Error "Encrypted data too short (missing tag)")
      else
        out ← forge_aes_gcm_decrypt (keyBytesOf key) ivb (Real 96)
                (drop (length blob - 12) blob) (take (length blob - 12) blob);
        if (out.1 : bool) then Ok (hexToBytes out.2)
        else Throw (Error "AES-GCM decryption failed: authentication tag mismatch").
Proof. split; [apply aesGcmEncrypt_96 | apply aesGcmDecrypt_96]. Qed.

(** A tag that forge rejects is never turned into a plaintext. *)
Lemma aesGcmDecrypt_rejected (params : AlgObject) (key : KeyOrBuffer)
    (data : ArrayBufferOrUint8Array) (ivb tag ciphertext : bytes) (hex : string) :
  ivBufferDecrypt params = Ok ivb →
  forge_aes_gcm_decrypt (keyBytesOf key) ivb
    (js_mul8 (js_div8 (tagLength_or_128 params))) tag ciphertext
  = Ok (false, hex) →
  let dataBytes := contents (asUint8Array data) in
  let len := Z.of_nat (length dataBytes) in
  let tagLength := js_div8 (tagLength_or_128 params) in
  tag = u8_slice_from_real dataBytes (int_sub_real len tagLength) →
  ciphertext = u8_slice_real dataBytes (Real 0) (int_sub_real len tagLength) →
  isThrow (aesGcmDecrypt params key data) = true.
Proof.
  intros Hiv Hforge dataBytes len tagLength -> ->.
  unfold aesGcmDecrypt. rewrite Hiv, bind_Ok.
  fold dataBytes. fold len. fold tagLength.
  destruct (int_lt_real len tagLength); [reflexivity|].
  fold tagLength in Hforge. rewrite Hforge, bind_Ok. reflexivity.
Qed.

End AesFacts.

(** ** SubtleCryptoPolyfill.ts *)

Section DispatcherFacts.
Context {P : Primitives}.
Import SubtleCryptoPolyfill.

(** C1 (amended): sign, verify, encrypt, decrypt and deriveKey never
    consult the usages of the key: each gives the same result for two key
    handles that differ in their usages only, so no operation fails for a
    usage that is missing. An HMAC key with raw material and no usage at
    all signs. *)
Theorem operations_ignore_usages (key : CryptoKey) (us : list string)
    (alg : AlgorithmIdentifier) (signature data : BufferSource)
    (derivedKeyType : AlgObject) (ext : bool) (keyUsages : list string)
    (rawKey : bytes) :
  sign alg (with_usages key us) data = sign alg key data
  ∧ verify alg (with_usages key us) signature data
    = verify alg key signature data
  ∧ encrypt alg (with_usages key us) data = encrypt alg key data
  ∧ decrypt alg (with_usages key us) data = decrypt alg key data
  ∧ deriveKey alg (with_usages key us) derivedKeyType ext keyUsages
    = deriveKey alg key derivedKeyType ext keyUsages
  ∧ sign (AlgStr "HMAC") (with_usages (with_rawKey key rawKey) []) data
    = Ok (hexToBytes (forge_hmac_sha256 rawKey (bufferOf data))).
Proof.
  repeat apply conj.
  - unfold sign, ed25519.ed25519Sign. reflexivity.
  - unfold verify, ed25519.ed25519Verify. reflexivity.
  - unfold encrypt, rsa.rsaEncrypt, aes.aesGcmEncrypt. reflexivity.
  - unfold decrypt, rsa.rsaDecrypt, aes.aesGcmDecrypt. reflexivity.
  - unfold deriveKey. reflexivity.
  - reflexivity.
Qed.

(** C2 (amended): exportKey never consults the extractable flag of the
    key: the result is the same whatever the flag is, and a key that is
    not extractable and carries raw key material is exported in "raw"
    format. *)
Theorem exportKey_ignores_extractable (format : string) (key : CryptoKey)
    (ext : bool) (rawKey : bytes) :
  exportKey format (with_extractable key ext) = exportKey format key
  ∧ exportKey "raw" (with_extractable (with_rawKey key rawKey) false)
    = Ok rawKey.
Proof.
  split.
  - unfold exportKey, ed25519.ed25519ExportKey, rsa.rsaExportKey. reflexivity.
  - reflexivity.
Qed.

(** C8: deriveBits, wrapKey and unwrapKey throw a NotSupportedError
    whatever their arguments, and so do importKey and exportKey for the
    format "jwk". *)
Theorem unsupported_operations
    (algorithm unwrapAlgorithm unwrappedKeyAlgorithm : AlgorithmIdentifier)
    (key wrappingKey : CryptoKey) (length : jsnum) (format : string)
    (keyData : BufferSource) (ext : bool) (keyUsages : list string) :
  deriveBits algorithm key length
    = Throw (NotSupportedError "deriveBits is not implemented")
  ∧ wrapKey format key wrappingKey algorithm
    = Throw (NotSupportedError "wrapKey is not implemented")
  ∧ unwrapKey format keyData wrappingKey unwrapAlgorithm unwrappedKeyAlgorithm
      ext keyUsages
    = Throw (NotSupportedError "unwrapKey is not implemented")
  ∧ importKey "jwk" keyData algorithm ext keyUsages
    = Throw (NotSupportedError "JWK format is not supported")
  ∧ exportKey "jwk" key
    = Throw (NotSupportedError "JWK format is not supported").
Proof. repeat apply conj; reflexivity. Qed.



(** With the empty name both forms are refused, with messages that
    differ: the template prints the identifier itself. *)
Lemma sign_empty_name (key : CryptoKey) (data : BufferSource) :
  sign (AlgStr "") key data
  = Throw (NotSupportedError "Signing algorithm  is not supported")
  ∧ sign (AlgObj (nameOnly "")) key data
    = Throw (NotSupportedError
               "Signing algorithm [object Object] is not supported").
Proof. split; reflexivity. Qed.


(** C10: generateKey for Ed25519 ignores [extractable] and [keyUsages]:
    whatever they are, the public key returned is extractable with usages
    ["verify"], the private key extractable with usages ["sign"]; they
    carry the pair TweetNaCl generated. *)
Theorem generateKey_Ed25519 (algorithm : AlgorithmIdentifier)
    (ext : bool) (keyUsages : list string) (pk sk : bytes) :
  name (normalize algorithm) = "Ed25519" →
  nacl_sign_keyPair = Ok (pk, sk) →
  ∃ publicKey privateKey,
    generateKey algorithm ext keyUsages = Ok (KeyPair publicKey privateKey)
    ∧ extractable publicKey = true ∧ usages publicKey = ["verify"]
    ∧ extractable privateKey = true ∧ usages privateKey = ["sign"]
    ∧ _rawPublicKey publicKey = Some pk ∧ _rawPrivateKey privateKey = Some sk.
Proof.
  intros Hname Hnacl. unfold generateKey.
  rewrite bool_decide_eq_true_2 by assumption.
  unfold ed25519.ed25519GenerateKey. rewrite Hnacl.
  eexists _, _. repeat apply conj; reflexivity.
Qed.

(** When TweetNaCl throws, so does generateKey. *)
Lemma generateKey_Ed25519_throws (algorithm : AlgorithmIdentifier)
    (ext : bool) (keyUsages : list string) (e : JsError) :
  name (normalize algorithm) = "Ed25519" →
  nacl_sign_keyPair = Throw e →
  generateKey algorithm ext keyUsages = Throw e.
Proof.
  intros Hname Hnacl. unfold generateKey.
  rewrite bool_decide_eq_true_2 by assumption.
  unfold ed25519.ed25519GenerateKey. now rewrite Hnacl.
Qed.

End DispatcherFacts.

(** ** The model on concrete inputs *)

Section OnSamples.
Import SubtleCryptoPolyfill.
#[local] Existing Instance Sample.primitives.

(** C1, with a usage check: the HMAC key below has no usage at all, and
    [sign] signs with it. *)
Lemma usage_check_counterexample :
  ("sign" ∉ usages Sample.hmacKey)
  ∧ sign (AlgStr "HMAC") Sample.hmacKey (Plain (AB Sample.hello)) = Ok [xf7].
Proof. split; [apply not_elem_of_nil | reflexivity]. Qed.

(** C2, with an extractable check: the same key is not extractable, and
    [exportKey] returns its raw material. *)
Lemma extractable_check_counterexample :
  extractable Sample.hmacKey = false
  ∧ exportKey "raw" Sample.hmacKey = Ok [x01; x02].
Proof. split; reflexivity. Qed.



Lemma hmac_verify_symmetry_witness :
  (sig ← hmac.hmacSign [x01] (AB Sample.hello);
   hmac.hmacVerify [x01] (AB sig) (AB Sample.hello)) = Ok true
  ∧ (sig ← hmac.hmacSign [x01] (AB Sample.hello);
     hmac.hmacVerify [x01] (AB sig) (AB [x01])) = Ok false.
Proof.
  destruct (hmac_verify_symmetry [x01] (AB Sample.hello) (AB [x01]))
    as [Hsame Hother].
  split; [exact Hsame | apply Hother; vm_compute; discriminate].
Defined.

Lemma generateKey_Ed25519_witness :
  ∃ publicKey privateKey,
    generateKey (AlgStr "Ed25519") false ["encrypt"]
    = Ok (KeyPair publicKey privateKey)
    ∧ extractable publicKey = true ∧ usages publicKey = ["verify"]
    ∧ extractable privateKey = true ∧ usages privateKey = ["sign"]
    ∧ _rawPublicKey publicKey = Some (replicate 32 x01)
    ∧ _rawPrivateKey privateKey
      = Some (replicate 32 x02 ++ replicate 32 x01).
Proof.
  apply (generateKey_Ed25519 (AlgStr "Ed25519") false ["encrypt"]
           (replicate 32 x01) (replicate 32 x02 ++ replicate 32 x01));
    reflexivity.
Defined.

(** The sample cipher, used with one tag length on both sides, gives the
    plaintext back; through the adapters, a tag length of 96 bits makes
    the round trip throw, a tag length of 128 bits does not. *)
Example aes_gcm_round_trip_on_sample :
  (out ← Sample.gcmEncrypt (replicate 32 x07) (replicate 12 x09) (Real 96)
           Sample.hello;
   Sample.gcmDecrypt (replicate 32 x07) (replicate 12 x09) (Real 96)
     (hexToBytes out.2) (hexToBytes out.1))
  = Ok (true, "48656c6c6f")
  ∧ (c ← encrypt (AlgObj (Sample.gcmParams (Num 96))) Sample.aesKey
           (Plain (AB Sample.hello));
     decrypt (AlgObj (Sample.gcmParams (Num 96))) Sample.aesKey (Plain (AB c)))
    = Throw (Error "AES-GCM decryption failed: authentication tag mismatch")
  ∧ (c ← encrypt (AlgObj (Sample.gcmParams (Num 128))) Sample.aesKey
           (Plain (AB Sample.hello));
     decrypt (AlgObj (Sample.gcmParams (Num 128))) Sample.aesKey (Plain (AB c)))
    = Ok Sample.hello.
Proof. repeat apply conj; vm_compute; reflexivity. Qed.

(** A message that is a view on part of a larger buffer: [aesGcmEncrypt]
    encrypts all of [dataBytes.buffer], so that the round trip returns
    the whole buffer. *)
Example aes_gcm_view_on_sample :
  let m := {| buffer := Sample.hello; byteOffset := 1; byteLength := 3 |} in
  contents m = [x65; x6c; x6c]
  ∧ (c ← aes.aesGcmEncrypt (Sample.gcmParams (Num 128)) (aes.IsKey Sample.aesKey)
           (U8 m);
     aes.aesGcmDecrypt (Sample.gcmParams (Num 128)) (aes.IsKey Sample.aesKey)
       (AB c))
    = Ok Sample.hello.
Proof. split; vm_compute; reflexivity. Qed.

End OnSamples.
